(** * BufferMgmt: packet buffers, buffer pools and the pool manager

  A shallow embedding of [src/packet_buffer.cpp], [src/buffer_metadata.cpp]
  and [src/pool_manager.cpp] (with the class layouts of the headers under
  [include/]), followed by the properties of the buffer window, of
  [release] and of the manager's pool selection and registration. *)

From Stdlib Require Import ZArith Lia Bool List.
From stdpp Require Import gmap list fin_maps.

Open Scope Z_scope.

(** ** Machine integers and addresses (LP64)

  [size_t] is a 64-bit unsigned integer, [ptrdiff_t] a 64-bit signed one and
  [int] a 32-bit signed one.  Values are kept in [Z]; every operation that
  can leave the range writes its wrap-around out.  An [unsigned char*] is
  the address it holds, and a pointer that may be [nullptr] is an
  [option]. *)

Definition to_size_t (z : Z) : Z := z mod 2 ^ 64.
Definition to_ptrdiff_t (z : Z) : Z := (z + 2 ^ 63) mod 2 ^ 64 - 2 ^ 63.
Definition to_int (z : Z) : Z := (z + 2 ^ 31) mod 2 ^ 32 - 2 ^ 31.

(** [p + n] and [p - n] on a byte pointer, and [p - q] between two of them. *)
Definition ptr_add (p n : Z) : Z := to_size_t (p + n).
Definition ptr_sub (p n : Z) : Z := to_size_t (p - n).
Definition ptr_diff (p q : Z) : Z := to_ptrdiff_t (p - q).

Definition is_size_t (z : Z) : Prop := 0 <= z < 2 ^ 64.

(** ** include/buffer_metadata.hpp, src/buffer_metadata.cpp *)

Module BufferMetadata.

Inductive BufferState := Free | Allocated | InUse | Released.

Record t := mk {
  ingress_port_ : Z;
  vlan_id_ : Z;
  rx_timestamp_ : Z;
  custom_metadata_ptr_ : option Z;
  current_state_ : BufferState
}.

(** [BufferMetadata::BufferMetadata()]; [now] is the clock reading taken by
    the constructor. *)
Definition ctor (now : Z) : t :=
  {| ingress_port_ := 0; vlan_id_ := 0; rx_timestamp_ := now;
     custom_metadata_ptr_ := None; current_state_ := Free |}.

Definition get_state (m : t) : BufferState := current_state_ m.

Definition set_state (state : BufferState) (m : t) : t :=
  {| ingress_port_ := ingress_port_ m; vlan_id_ := vlan_id_ m;
     rx_timestamp_ := rx_timestamp_ m;
     custom_metadata_ptr_ := custom_metadata_ptr_ m;
     current_state_ := state |}.

End BufferMetadata.

(** ** include/packet_buffer.hpp, src/packet_buffer.cpp: the window *)

Module PacketBuffer.

Record t := mk {
  buffer_start_ : Z;
  total_allocated_size_ : Z;
  data_ptr_ : Z;
  data_len_ : Z;
  headroom_ : Z;
  tailroom_ : Z;
  ref_count_ : Z;
  next_ : option Z;
  metadata_ : option Z;
  numa_node_ : Z;
  owning_pool_ : option Z
}.

(** The constructor.  Its second and third parameters (start and size of
    the whole unit) are not stored. *)
Definition ctor (pool : option Z) (buffer_block_start_param total_block_size_param : Z)
    (data_area_start_ptr data_payload_capacity_val : Z)
    (configured_headroom configured_tailroom : Z)
    (metadata_ptr_param : option Z) (numa_node_val : Z) : t :=
  {| owning_pool_ := pool;
     buffer_start_ := data_area_start_ptr;
     total_allocated_size_ :=
       to_size_t (to_size_t (configured_headroom + data_payload_capacity_val)
                  + configured_tailroom);
     data_ptr_ := ptr_add data_area_start_ptr configured_headroom;
     data_len_ := 0;
     headroom_ := configured_headroom;
     tailroom_ := configured_tailroom;
     metadata_ := metadata_ptr_param;
     numa_node_ := numa_node_val;
     ref_count_ := 0;
     next_ := None |}.

(** Assignments to the four members that are written after construction. *)
Definition with_data_ptr (p : Z) (b : t) : t :=
  mk (buffer_start_ b) (total_allocated_size_ b) p (data_len_ b)
     (headroom_ b) (tailroom_ b) (ref_count_ b) (next_ b) (metadata_ b)
     (numa_node_ b) (owning_pool_ b).

Definition with_data_len (n : Z) (b : t) : t :=
  mk (buffer_start_ b) (total_allocated_size_ b) (data_ptr_ b) n
     (headroom_ b) (tailroom_ b) (ref_count_ b) (next_ b) (metadata_ b)
     (numa_node_ b) (owning_pool_ b).

Definition with_ref_count (c : Z) (b : t) : t :=
  mk (buffer_start_ b) (total_allocated_size_ b) (data_ptr_ b) (data_len_ b)
     (headroom_ b) (tailroom_ b) c (next_ b) (metadata_ b)
     (numa_node_ b) (owning_pool_ b).

Definition with_next (n : option Z) (b : t) : t :=
  mk (buffer_start_ b) (total_allocated_size_ b) (data_ptr_ b) (data_len_ b)
     (headroom_ b) (tailroom_ b) (ref_count_ b) n (metadata_ b)
     (numa_node_ b) (owning_pool_ b).

Definition ref_count (b : t) : Z := ref_count_ b.
Definition data (b : t) : Z := data_ptr_ b.
Definition data_len (b : t) : Z := data_len_ b.
Definition headroom_size (b : t) : Z := headroom_ b.
Definition tailroom_size (b : t) : Z := tailroom_ b.
Definition next_buffer (b : t) : option Z := next_ b.
Definition set_next_buffer (next : option Z) (b : t) : t := with_next next b.
Definition metadata (b : t) : option Z := metadata_ b.
Definition get_numa_node (b : t) : Z := numa_node_ b.

(** [fetch_add(1)] on the atomic [int]. *)
Definition add_ref (b : t) : t := with_ref_count (to_int (ref_count_ b + 1)) b.

Definition capacity (b : t) : Z :=
  to_size_t (to_size_t (total_allocated_size_ b - headroom_ b) - tailroom_ b).

(** [(buffer_start_ + total_allocated_size_) - data_ptr_] is a [ptrdiff_t];
    the comparison with [len] and the assignment to [data_len_] convert it
    to [size_t]. *)
Definition set_data_len (len : Z) (b : t) : t :=
  let room :=
    to_size_t (ptr_diff (ptr_add (buffer_start_ b) (total_allocated_size_ b))
                        (data_ptr_ b)) in
  if len >? room then with_data_len room b else with_data_len len b.

Definition reserve_headroom (len : Z) (b : t) : option Z * t :=
  let current_dynamic_headroom :=
    to_size_t (ptr_diff (data_ptr_ b) (buffer_start_ b)) in
  if len >? current_dynamic_headroom then (None, b)
  else
    let b1 := with_data_ptr (ptr_sub (data_ptr_ b) len) b in
    let b2 := with_data_len (to_size_t (data_len_ b1 + len)) b1 in
    (Some (data_ptr_ b2), b2).

Definition reserve_tailroom (len : Z) (b : t) : option Z * t :=
  let current_dynamic_tailroom :=
    to_size_t (ptr_diff (ptr_add (buffer_start_ b) (total_allocated_size_ b))
                        (ptr_add (data_ptr_ b) (data_len_ b))) in
  if len >? current_dynamic_tailroom then (None, b)
  else
    let write_ptr := ptr_add (data_ptr_ b) (data_len_ b) in
    (Some write_ptr, with_data_len (to_size_t (data_len_ b + len)) b).

(** The public operations that move the window, and runs of them. *)
Inductive window_op :=
| SetDataLen (n : Z)
| ReserveHeadroom (n : Z)
| ReserveTailroom (n : Z).

Definition op_arg (o : window_op) : Z :=
  match o with SetDataLen n | ReserveHeadroom n | ReserveTailroom n => n end.

Definition apply_op (o : window_op) (b : t) : t :=
  match o with
  | SetDataLen n => set_data_len n b
  | ReserveHeadroom n => snd (reserve_headroom n b)
  | ReserveTailroom n => snd (reserve_tailroom n b)
  end.

(** The buffer after each operation of [ops], in order. *)
Fixpoint trace (ops : list window_op) (b : t) : list t :=
  match ops with
  | [] => []
  | o :: ops' => let b' := apply_op o b in b' :: trace ops' b'
  end.

(** The region [buffer_start_ .. buffer_start_ + total_allocated_size_] is
    a block of memory: it lies in the address space and holds the
    configured headroom. *)
Definition region_ok (b : t) : Prop :=
  0 <= buffer_start_ b /\
  0 <= headroom_ b <= total_allocated_size_ b /\
  buffer_start_ b + total_allocated_size_ b < 2 ^ 64.

(** The window just after construction, allocation or release. *)
Definition fresh (b : t) : Prop :=
  data_ptr_ b = buffer_start_ b + headroom_ b /\ data_len_ b = 0.

(** The two window invariants of the data model. *)
Definition window_inv (b : t) : Prop :=
  buffer_start_ b <= data_ptr_ b /\
  data_ptr_ b + data_len_ b <= buffer_start_ b + total_allocated_size_ b.

(** A buffer over a real region whose window lies inside it. *)
Definition wf (b : t) : Prop :=
  0 <= buffer_start_ b /\
  buffer_start_ b + total_allocated_size_ b < 2 ^ 64 /\
  0 <= data_len_ b /\
  window_inv b.

End PacketBuffer.

(** ** include/packet_buffer_pool.hpp: the members of a pool

    Only the class declaration is part of the sources; the member functions
    are modelled further down. *)

Module PacketBufferPool.

Record t := mk {
  buffer_payload_size_ : Z;
  initial_pool_count_ : Z;
  numa_node_ : Z;
  headroom_size_ : Z;
  tailroom_size_ : Z;
  single_buffer_unit_alloc_size_ : Z;
  pool_memory_block_ : option Z;
  free_list_ : list Z;
  alloc_count_ : Z;
  dealloc_count_ : Z
}.

End PacketBufferPool.

(** ** The objects in memory

    Buffers, metadata records and pools refer to each other by address, so
    they live in one store keyed by address.  [heap_next .. heap_end] is the
    part of the address space the host allocator has not handed out yet. *)

Record Memory := mkMemory {
  buffers : gmap Z PacketBuffer.t;
  records : gmap Z BufferMetadata.t;
  pools : gmap Z PacketBufferPool.t;
  heap_next : Z;
  heap_end : Z
}.

Definition with_buffers (bs : gmap Z PacketBuffer.t) (m : Memory) : Memory :=
  mkMemory bs (records m) (pools m) (heap_next m) (heap_end m).

Definition with_records (rs : gmap Z BufferMetadata.t) (m : Memory) : Memory :=
  mkMemory (buffers m) rs (pools m) (heap_next m) (heap_end m).

Definition with_pools (ps : gmap Z PacketBufferPool.t) (m : Memory) : Memory :=
  mkMemory (buffers m) (records m) ps (heap_next m) (heap_end m).

(** ** src/packet_buffer.cpp: [PacketBuffer::release]

    [deallocate_buffer pool this] stands for the call
    [owning_pool_->deallocate_buffer(this)]; its body is in
    src/packet_buffer_pool.cpp, which is not part of the sources, so
    [release] takes it as a parameter.  [release] is undefined ([None]) on an
    address that holds no buffer. *)

Section Release.
Import PacketBuffer.

Variable deallocate_buffer : Z -> Z -> Memory -> Memory.

(** The window and link as [release] resets them. *)
Definition reset_for_pool (b : t) : t :=
  with_next None
    (with_data_len 0
       (with_data_ptr (ptr_add (buffer_start_ b) (headroom_ b)) b)).

(** [metadata_->set_state(state)] behind the null check. *)
Definition set_record_state (md : option Z) (state : BufferMetadata.BufferState)
    (m : Memory) : Memory :=
  match md with
  | Some r => with_records (alter (BufferMetadata.set_state state) r (records m)) m
  | None => m
  end.

Definition release (this : Z) (m : Memory) : option Memory :=
  match buffers m !! this with
  | None => None
  | Some b =>
      let before := ref_count_ b in
      let b1 := with_ref_count (to_int (before - 1)) b in
      let m1 := with_buffers (<[this := b1]> (buffers m)) m in
      if before =? 1 then
        match owning_pool_ b1 with
        | Some pool =>
            let m2 := with_buffers (<[this := reset_for_pool b1]> (buffers m1)) m1 in
            let m3 := set_record_state (metadata_ b1) BufferMetadata.Released m2 in
            Some (deallocate_buffer pool this m3)
        | None => Some m1
        end
      else Some m1
  end.

End Release.

(** ** include/pool_manager.hpp, src/pool_manager.cpp *)

Record PoolConfig := mkPoolConfig {
  buffer_size : Z;
  initial_count : Z;
  headroom : Z;
  tailroom : Z
}.

(** What [std::make_unique<PacketBufferPool>(...)] does: it yields the new
    pool or throws one of the two exception classes that
    [configure_pools_for_numa_node] catches. *)
Inductive construction :=
| Constructed (pool : Z)
| ThrowsBadAlloc
| ThrowsException.

Definition failed (c : construction) : bool :=
  match c with
  | Constructed _ => false
  | ThrowsBadAlloc | ThrowsException => true
  end.

Module PoolManager.

(** [std::map::lower_bound]: the entry with the least key that is not less
    than [k], if there is one. *)
Definition lower_bound {V : Type} (m : gmap Z V) (k : Z) : option (Z * V) :=
  map_fold
    (fun key v best =>
       if k <=? key then
         match best with
         | Some (key', _) => if key <? key' then Some (key, v) else best
         | None => Some (key, v)
         end
       else best)
    None m.

(** [numa_pools_]: NUMA node, then payload size, to the owned pool. *)
Definition find_pool (numa_pools_ : gmap Z (gmap Z Z))
    (desired_payload_size numa_node : Z) : option Z :=
  let on_node :=
    match numa_pools_ !! numa_node with
    | Some size_to_pool_map =>
        match lower_bound size_to_pool_map desired_payload_size with
        | Some (_, pool) => Some pool
        | None => None
        end
    | None => None
    end in
  match on_node with
  | Some pool => Some pool
  | None =>
      if negb (numa_node =? -1) then
        match numa_pools_ !! (-1) with
        | Some size_to_pool_map =>
            match lower_bound size_to_pool_map desired_payload_size with
            | Some (_, pool) => Some pool
            | None => None
            end
        | None => None
        end
      else None
  end.

Section Manager.

(** The pools and their buffers live in a [World] that the manager only
    passes on to the two pool operations it calls. *)
Context {World : Type}.
Variable make_pool : Z -> Z -> Z -> Z -> Z -> World -> construction * World.
Variable allocate_buffer : Z -> World -> option Z * World.

Definition allocate (numa_pools_ : gmap Z (gmap Z Z))
    (desired_payload_size numa_node : Z) (w : World) : option Z * World :=
  match find_pool numa_pools_ desired_payload_size numa_node with
  | Some pool => allocate_buffer pool w
  | None => (None, w)
  end.

(** The loop over [configs], on the node's map [pools_for_specific_numa]. *)
Fixpoint configure_loop (numa_node : Z) (configs : list PoolConfig)
    (pools_for_specific_numa : gmap Z Z) (w : World)
    : bool * gmap Z Z * World :=
  match configs with
  | [] => (true, pools_for_specific_numa, w)
  | config :: rest =>
      match pools_for_specific_numa !! buffer_size config with
      | Some _ => configure_loop numa_node rest pools_for_specific_numa w
      | None =>
          match make_pool (buffer_size config) (initial_count config) numa_node
                          (headroom config) (tailroom config) w with
          | (Constructed new_pool, w') =>
              configure_loop numa_node rest
                (<[buffer_size config := new_pool]> pools_for_specific_numa) w'
          | (ThrowsBadAlloc, w') => (false, pools_for_specific_numa, w')
          | (ThrowsException, w') => (false, pools_for_specific_numa, w')
          end
      end
  end.

(** [numa_pools_[numa_node]] creates the node's entry when it is missing. *)
Definition configure_pools_for_numa_node (numa_pools_ : gmap Z (gmap Z Z))
    (numa_node : Z) (configs : list PoolConfig) (w : World)
    : bool * gmap Z (gmap Z Z) * World :=
  let pools_for_specific_numa := default ∅ (numa_pools_ !! numa_node) in
  match configure_loop numa_node configs pools_for_specific_numa w with
  | (ok, pools', w') => (ok, <[numa_node := pools']> numa_pools_, w')
  end.

Definition add_pool (numa_pools_ : gmap Z (gmap Z Z)) (numa_node : Z)
    (config : PoolConfig) (w : World) : bool * gmap Z (gmap Z Z) * World :=
  configure_pools_for_numa_node numa_pools_ numa_node [config] w.

End Manager.

End PoolManager.

(** ** The member functions of [PacketBufferPool]

    src/packet_buffer_pool.cpp is not part of the sources: what follows is
    written from the pool contract of the specification (sections 3, 4.2
    and 6), for the properties that look at the buffers a pool hands out. *)

Module PoolModel.
Import PacketBuffer.

(** Modelled from the spec: the size of the attached record,
    [sizeof(BufferMetadata)], for an LP64 layout of the class declaration. *)
Definition record_size : Z := 32.

(** Modelled from the spec: the size of the control block,
    [sizeof(PacketBuffer)], for an LP64 layout of the class declaration. *)
Definition control_block_size : Z := 88.

(** Modelled from the spec: the size of the pool object itself,
    [sizeof(PacketBufferPool)], for an LP64 layout of the class declaration. *)
Definition pool_object_size : Z := 136.

(** Modelled from the spec: the host's allocator, which the specification
    leaves to the environment.  It hands out the next [size] bytes of the
    heap, or nothing when they do not fit. *)
Definition heap_alloc (size : Z) (m : Memory) : option (Z * Memory) :=
  if (0 <=? size) && (heap_next m + size <=? heap_end m)
  then Some (heap_next m,
             mkMemory (buffers m) (records m) (pools m)
                      (heap_next m + size) (heap_end m))
  else None.

(** Modelled from the spec: one unit
    [[BufferRecord][Buffer control block][headroom][payload][tailroom]]
    constructed in place at [unit_start], its record zero-initialised and in
    state "free", its control block with [ref_count] 0 and the identity of
    the pool. *)
Definition construct_unit (pool unit_start unit_size : Z)
    (payload configured_headroom configured_tailroom numa_node : Z)
    (m : Memory) : Z * Memory :=
  let record := unit_start in
  let control_block := unit_start + record_size in
  let data_area := unit_start + record_size + control_block_size in
  let b := ctor (Some pool) unit_start unit_size data_area payload
                configured_headroom configured_tailroom (Some record) numa_node in
  (control_block,
   with_buffers (<[control_block := b]> (buffers m))
     (with_records (<[record := BufferMetadata.ctor 0]> (records m)) m)).

(** Modelled from the spec: the units of an arena, placed at fixed strides
    from [unit_start] on; the result lists their control blocks. *)
Fixpoint construct_units (count : nat) (pool unit_start unit_size : Z)
    (payload configured_headroom configured_tailroom numa_node : Z)
    (m : Memory) : list Z * Memory :=
  match count with
  | O => ([], m)
  | S count' =>
      match construct_unit pool unit_start unit_size payload
                           configured_headroom configured_tailroom numa_node m with
      | (unit, m1) =>
          match construct_units count' pool (unit_start + unit_size) unit_size
                  payload configured_headroom configured_tailroom numa_node m1 with
          | (units, m2) => (unit :: units, m2)
          end
      end
  end.

(** Modelled from the spec: construction of a pool (section 4.2): one arena
    of [unit_count * (record_size + control_block_size + headroom + payload +
    tailroom)] bytes, every unit constructed in it and put on the free list.
    When the memory cannot be obtained the construction fails as a whole and
    leaves nothing behind. *)
Definition make_unique (buffer_payload_size initial_count numa_node : Z)
    (configured_headroom configured_tailroom : Z) (m : Memory)
    : construction * Memory :=
  let unit_size :=
    record_size + control_block_size
    + configured_headroom + buffer_payload_size + configured_tailroom in
  match heap_alloc pool_object_size m with
  | None => (ThrowsBadAlloc, m)
  | Some (pool, m1) =>
      match heap_alloc (initial_count * unit_size) m1 with
      | None => (ThrowsBadAlloc, m)
      | Some (arena, m2) =>
          match construct_units (Z.to_nat initial_count) pool arena unit_size
                  buffer_payload_size configured_headroom configured_tailroom
                  numa_node m2 with
          | (units, m3) =>
              let p :=
                PacketBufferPool.mk buffer_payload_size initial_count numa_node
                  configured_headroom configured_tailroom unit_size (Some arena)
                  units 0 0 in
              (Constructed pool, with_pools (<[pool := p]> (pools m3)) m3)
          end
      end
  end.

(** Modelled from the spec: [allocate_buffer] (section 4.2) pops a unit from
    the free list, sets its [ref_count] to 1 and its lifecycle state to
    "allocated", resets its window and counts the allocation; on an empty free
    list it returns [nullptr] and changes nothing. *)
Definition allocate_buffer (pool : Z) (m : Memory) : option Z * Memory :=
  match pools m !! pool with
  | None => (None, m)
  | Some p =>
      match PacketBufferPool.free_list_ p with
      | [] => (None, m)
      | unit :: rest =>
          match buffers m !! unit with
          | None => (None, m)
          | Some b =>
              let b' :=
                with_ref_count 1
                  (with_data_len 0
                     (with_data_ptr (ptr_add (buffer_start_ b) (headroom_ b)) b)) in
              let m1 := with_buffers (<[unit := b']> (buffers m)) m in
              let m2 := set_record_state (metadata_ b) BufferMetadata.Allocated m1 in
              let p' :=
                PacketBufferPool.mk
                  (PacketBufferPool.buffer_payload_size_ p)
                  (PacketBufferPool.initial_pool_count_ p)
                  (PacketBufferPool.numa_node_ p)
                  (PacketBufferPool.headroom_size_ p)
                  (PacketBufferPool.tailroom_size_ p)
                  (PacketBufferPool.single_buffer_unit_alloc_size_ p)
                  (PacketBufferPool.pool_memory_block_ p)
                  rest
                  (to_size_t (PacketBufferPool.alloc_count_ p + 1))
                  (PacketBufferPool.dealloc_count_ p) in
              (Some unit, with_pools (<[pool := p']> (pools m2)) m2)
          end
      end
  end.

(** Modelled from the spec: [deallocate_buffer] (sections 4.2 and 6) pushes
    the unit back onto the free list, counts the free and sets the record's
    lifecycle state to "free". *)
Definition deallocate_buffer (pool unit : Z) (m : Memory) : Memory :=
  match pools m !! pool with
  | None => m
  | Some p =>
      let md := match buffers m !! unit with
                | Some b => metadata_ b
                | None => None
                end in
      let m1 := set_record_state md BufferMetadata.Free m in
      let p' :=
        PacketBufferPool.mk
          (PacketBufferPool.buffer_payload_size_ p)
          (PacketBufferPool.initial_pool_count_ p)
          (PacketBufferPool.numa_node_ p)
          (PacketBufferPool.headroom_size_ p)
          (PacketBufferPool.tailroom_size_ p)
          (PacketBufferPool.single_buffer_unit_alloc_size_ p)
          (PacketBufferPool.pool_memory_block_ p)
          (unit :: PacketBufferPool.free_list_ p)
          (PacketBufferPool.alloc_count_ p)
          (to_size_t (PacketBufferPool.dealloc_count_ p + 1)) in
      with_pools (<[pool := p']> (pools m1)) m1
  end.

End PoolModel.

(** ** The size-class fallback scenario

    A manager over the modelled pools, configured with pools of 128, 512 and
    1024 bytes on node 0 and one of 1024 bytes on the global tier (unit counts
    and headrooms as in tests/pool_manager_test.cpp). *)

Module Scenario.

Definition boot : Memory := mkMemory ∅ ∅ ∅ 4096 (2 ^ 30).

Definition configs_node0 : list PoolConfig :=
  [mkPoolConfig 128 10 32 0; mkPoolConfig 512 5 64 0; mkPoolConfig 1024 4 128 0].

Definition configs_node_global : list PoolConfig :=
  [mkPoolConfig 1024 8 128 0].

Definition configure (numa_pools_ : gmap Z (gmap Z Z)) (numa_node : Z)
    (configs : list PoolConfig) (m : Memory) : bool * gmap Z (gmap Z Z) * Memory :=
  PoolManager.configure_pools_for_numa_node PoolModel.make_unique
    numa_pools_ numa_node configs m.

Definition allocate (numa_pools_ : gmap Z (gmap Z Z))
    (desired_payload_size numa_node : Z) (m : Memory) : option Z * Memory :=
  PoolManager.allocate PoolModel.allocate_buffer
    numa_pools_ desired_payload_size numa_node m.

(** The manager's map and the memory once both calls have returned. *)
Definition configured : bool * gmap Z (gmap Z Z) * Memory :=
  match configure ∅ 0 configs_node0 boot with
  | (ok0, numa_pools0, m0) =>
      match configure numa_pools0 (-1) configs_node_global m0 with
      | (ok1, numa_pools1, m1) => (ok0 && ok1, numa_pools1, m1)
      end
  end.

Definition numa_pools_ : gmap Z (gmap Z Z) := snd (fst configured).
Definition memory : Memory := snd configured.

(** The buffer an allocation returned, read back from the memory it left. *)
Definition returned_buffer (r : option Z * Memory) : option PacketBuffer.t :=
  match r with
  | (Some b, m) => buffers m !! b
  | (None, _) => None
  end.

End Scenario.

(** ** The selection policy, as the specification words it *)

Module Policy.

(** The pools registered for an affinity (none when the node is unknown). *)
Definition pools_of (numa_pools_ : gmap Z (gmap Z Z)) (affinity : Z) : gmap Z Z :=
  default ∅ (numa_pools_ !! affinity).

(** [pool] is the pool with the smallest size class that is at least
    [requested_size]. *)
Definition best_fit (registered : gmap Z Z) (requested_size pool : Z) : Prop :=
  exists size_class,
    registered !! size_class = Some pool /\
    requested_size <= size_class /\
    forall other, requested_size <= other -> is_Some (registered !! other) ->
                  size_class <= other.

(** No registered size class is at least [requested_size]. *)
Definition no_fit (registered : gmap Z Z) (requested_size : Z) : Prop :=
  forall size_class, is_Some (registered !! size_class) ->
                     size_class < requested_size.

(** What a search for the least key not less than [k] has to return on
    [m]: an entry of [m] with that key, or nothing when every key is
    smaller. *)
Definition lower_bound_result {V : Type} (k : Z) (r : option (Z * V))
    (m : gmap Z V) : Prop :=
  match r with
  | Some (key, v) =>
      m !! key = Some v /\ k <= key /\
      forall other, k <= other -> is_Some (m !! other) -> key <= other
  | None => forall other, is_Some (m !! other) -> other < k
  end.

End Policy.

(** ** Two more situations over the modelled pools *)

Module Exhaustion.

(** One 128-byte unit on node 0 and five on the global tier; the single unit
    of node 0 is then taken. *)
Definition configured : bool * gmap Z (gmap Z Z) * Memory :=
  match Scenario.configure ∅ 0 [mkPoolConfig 128 1 32 0] Scenario.boot with
  | (ok0, numa_pools0, m0) =>
      match Scenario.configure numa_pools0 (-1) [mkPoolConfig 128 5 32 0] m0 with
      | (ok1, numa_pools1, m1) => (ok0 && ok1, numa_pools1, m1)
      end
  end.

Definition numa_pools_ : gmap Z (gmap Z Z) := snd (fst configured).

Definition first_allocation : option Z * Memory :=
  Scenario.allocate numa_pools_ 100 0 (snd configured).

Definition memory : Memory := snd first_allocation.

End Exhaustion.

Module Orphan.
Import PacketBuffer.

(** A buffer built by hand, as tests/packet_buffer_test.cpp does, but with no
    owning pool: record at 8192, control block at 8224, data area at 8312
    with 32 bytes of headroom and 128 of payload.  It holds one reference,
    and its window has been moved by [set_data_len(10)] and
    [reserve_headroom(5)]. *)
Definition this : Z := 8224.
Definition record : Z := 8192.

Definition buffer : t :=
  snd (reserve_headroom 5
         (set_data_len 10
            (add_ref (ctor None 8192 280 8312 128 32 0 (Some record) (-1))))).

Definition memory : Memory :=
  mkMemory {[this := buffer]}
           {[record := BufferMetadata.set_state BufferMetadata.Allocated
                         (BufferMetadata.ctor 0)]}
           ∅ 16384 (2 ^ 30).

End Orphan.

(** ** Reference counting through a pointer, and [PoolManager::deallocate]

    [add_ref] on the buffer stored at [this]; like [release] it is undefined
    on an address that holds no buffer. *)

Section Lifetime.

Variable deallocate_buffer : Z -> Z -> Memory -> Memory.

Definition add_ref_at (this : Z) (m : Memory) : option Memory :=
  match buffers m !! this with
  | None => None
  | Some b => Some (with_buffers (<[this := PacketBuffer.add_ref b]> (buffers m)) m)
  end.

(** [PoolManager::deallocate]: nothing on [nullptr], else [buffer->release()]. *)
Definition deallocate (buffer : option Z) (m : Memory) : option Memory :=
  match buffer with
  | None => Some m
  | Some b => release deallocate_buffer b m
  end.

(** [k] calls of a member function in a row, stopping at the first undefined
    one. *)
Fixpoint repeat_call (k : nat) (f : Memory -> option Memory) (m : Memory)
    : option Memory :=
  match k with
  | O => Some m
  | S k' =>
      match f m with
      | Some m' => repeat_call k' f m'
      | None => None
      end
  end.

End Lifetime.

(** * Properties *)

Section MachineIntegers.

Lemma to_size_t_small z : is_size_t z -> to_size_t z = z.
Proof. intros H. unfold to_size_t. apply Z.mod_small. exact H. Qed.

Lemma to_size_t_range z : is_size_t (to_size_t z).
Proof. unfold to_size_t, is_size_t. apply Z.mod_pos_bound. lia. Qed.

(** Converting a pointer difference to [size_t] forgets the signed detour. *)
Lemma to_size_t_ptrdiff z : to_size_t (to_ptrdiff_t z) = to_size_t z.
Proof.
  unfold to_size_t, to_ptrdiff_t.
  rewrite Zminus_mod_idemp_l. f_equal. lia.
Qed.

Lemma size_of_diff p q : 0 <= q <= p -> p < 2 ^ 64 ->
  to_size_t (ptr_diff p q) = p - q.
Proof.
  intros Hq Hp. unfold ptr_diff. rewrite to_size_t_ptrdiff.
  apply to_size_t_small. unfold is_size_t. lia.
Qed.

End MachineIntegers.

(** ** The window operations of [PacketBuffer] *)

Section Window.
Import PacketBuffer.

Lemma wf_region_end b : wf b ->
  ptr_add (buffer_start_ b) (total_allocated_size_ b)
  = buffer_start_ b + total_allocated_size_ b.
Proof.
  intros (Hs & He & Hl & Hlo & Hhi). unfold ptr_add.
  apply to_size_t_small. unfold is_size_t. lia.
Qed.

Lemma wf_room b : wf b ->
  to_size_t (ptr_diff (ptr_add (buffer_start_ b) (total_allocated_size_ b))
                      (data_ptr_ b))
  = buffer_start_ b + total_allocated_size_ b - data_ptr_ b.
Proof.
  intros Hwf. rewrite (wf_region_end b Hwf).
  destruct Hwf as (Hs & He & Hl & Hlo & Hhi).
  apply size_of_diff; lia.
Qed.

Lemma wf_dynamic_headroom b : wf b ->
  to_size_t (ptr_diff (data_ptr_ b) (buffer_start_ b))
  = data_ptr_ b - buffer_start_ b.
Proof.
  intros (Hs & He & Hl & Hlo & Hhi). apply size_of_diff; lia.
Qed.

Lemma wf_dynamic_tailroom b : wf b ->
  to_size_t (ptr_diff (ptr_add (buffer_start_ b) (total_allocated_size_ b))
                      (ptr_add (data_ptr_ b) (data_len_ b)))
  = buffer_start_ b + total_allocated_size_ b - (data_ptr_ b + data_len_ b).
Proof.
  intros Hwf. rewrite (wf_region_end b Hwf).
  destruct Hwf as (Hs & He & Hl & Hlo & Hhi).
  assert (Hend : ptr_add (data_ptr_ b) (data_len_ b) = data_ptr_ b + data_len_ b).
  { unfold ptr_add. apply to_size_t_small. unfold is_size_t. lia. }
  rewrite Hend. apply size_of_diff; lia.
Qed.

Lemma fresh_region_wf b : region_ok b -> fresh b -> wf b.
Proof.
  intros (Hs & Hh & He) (Hp & Hl). unfold wf, window_inv.
  rewrite Hp, Hl. lia.
Qed.

(** What [set_data_len] stores, without the machine arithmetic. *)
Lemma set_data_len_eq b n : wf b ->
  set_data_len n b =
    with_data_len
      (if data_ptr_ b + n <=? buffer_start_ b + total_allocated_size_ b
       then n
       else buffer_start_ b + total_allocated_size_ b - data_ptr_ b) b.
Proof.
  intros Hwf. unfold set_data_len. rewrite (wf_room b Hwf).
  destruct (Z.gtb_spec n (buffer_start_ b + total_allocated_size_ b - data_ptr_ b));
    destruct (Z.leb_spec (data_ptr_ b + n)
                         (buffer_start_ b + total_allocated_size_ b));
    try reflexivity; lia.
Qed.

Lemma reserve_headroom_eq b n : wf b -> is_size_t n ->
  reserve_headroom n b =
    if n >? data_ptr_ b - buffer_start_ b then (None, b)
    else (Some (data_ptr_ b - n),
          with_data_len (data_len_ b + n) (with_data_ptr (data_ptr_ b - n) b)).
Proof.
  intros Hwf Hn. unfold reserve_headroom. rewrite (wf_dynamic_headroom b Hwf).
  destruct (Z.gtb_spec n (data_ptr_ b - buffer_start_ b)) as [Hgt | Hle];
    [reflexivity |].
  destruct Hwf as (Hs & He & Hl & Hlo & Hhi). unfold is_size_t in Hn.
  assert (Hp : ptr_sub (data_ptr_ b) n = data_ptr_ b - n).
  { unfold ptr_sub. apply to_size_t_small. unfold is_size_t. lia. }
  rewrite Hp. cbn [with_data_ptr with_data_len data_ptr_ data_len_].
  rewrite to_size_t_small by (unfold is_size_t; lia).
  reflexivity.
Qed.

Lemma reserve_tailroom_eq b n : wf b -> is_size_t n ->
  reserve_tailroom n b =
    if n >? buffer_start_ b + total_allocated_size_ b - (data_ptr_ b + data_len_ b)
    then (None, b)
    else (Some (data_ptr_ b + data_len_ b), with_data_len (data_len_ b + n) b).
Proof.
  intros Hwf Hn. unfold reserve_tailroom. rewrite (wf_dynamic_tailroom b Hwf).
  destruct (Z.gtb_spec n (buffer_start_ b + total_allocated_size_ b
                          - (data_ptr_ b + data_len_ b))) as [Hgt | Hle];
    [reflexivity |].
  destruct Hwf as (Hs & He & Hl & Hlo & Hhi). unfold is_size_t in Hn.
  unfold ptr_add. rewrite !to_size_t_small by (unfold is_size_t; lia).
  reflexivity.
Qed.

Lemma apply_op_wf o b : wf b -> is_size_t (op_arg o) -> wf (apply_op o b).
Proof.
  intros Hwf Hn. destruct o as [n | n | n]; cbn [apply_op op_arg] in *.
  - rewrite (set_data_len_eq b n Hwf).
    destruct Hwf as (Hs & He & Hl & Hlo & Hhi). unfold is_size_t in Hn.
    unfold wf, window_inv. cbn.
    destruct (Z.leb_spec (data_ptr_ b + n)
                         (buffer_start_ b + total_allocated_size_ b)); lia.
  - rewrite (reserve_headroom_eq b n Hwf Hn).
    destruct (Z.gtb_spec n (data_ptr_ b - buffer_start_ b)); [exact Hwf |].
    destruct Hwf as (Hs & He & Hl & Hlo & Hhi). unfold is_size_t in Hn.
    unfold wf, window_inv. cbn. lia.
  - rewrite (reserve_tailroom_eq b n Hwf Hn).
    destruct (Z.gtb_spec n (buffer_start_ b + total_allocated_size_ b
                            - (data_ptr_ b + data_len_ b))); [exact Hwf |].
    destruct Hwf as (Hs & He & Hl & Hlo & Hhi). unfold is_size_t in Hn.
    unfold wf, window_inv. cbn. lia.
Qed.

Lemma trace_wf ops : forall b, wf b ->
  Forall (fun o => is_size_t (op_arg o)) ops ->
  Forall wf (trace ops b).
Proof.
  induction ops as [| o ops IH]; intros b Hwf Hargs; cbn [trace].
  - constructor.
  - inversion Hargs as [| ? ? Ho Hrest]; subst.
    pose proof (apply_op_wf o b Hwf Ho) as Hwf'.
    constructor; [exact Hwf' | apply IH; assumption].
Qed.

(** C7: [set_data_len n] stores [n] when [data_ptr_ + n] stays inside the
    region and otherwise exactly the room left up to the region end,
    [(buffer_start_ + total_allocated_size_) - data_ptr_]; it always returns
    (there is no error path) and writes no other member. *)
Theorem set_data_len_truncates (b : t) (n : Z) :
  wf b -> is_size_t n ->
  (data_ptr_ b + n <= buffer_start_ b + total_allocated_size_ b ->
     data_len (set_data_len n b) = n) /\
  (buffer_start_ b + total_allocated_size_ b < data_ptr_ b + n ->
     data_len (set_data_len n b)
     = buffer_start_ b + total_allocated_size_ b - data_ptr_ b) /\
  set_data_len n b = with_data_len (data_len (set_data_len n b)) b /\
  data_ptr_ (set_data_len n b) = data_ptr_ b /\
  next_ (set_data_len n b) = next_ b /\
  ref_count_ (set_data_len n b) = ref_count_ b.
Proof.
  intros Hwf Hn. rewrite (set_data_len_eq b n Hwf).
  destruct (Z.leb_spec (data_ptr_ b + n)
                       (buffer_start_ b + total_allocated_size_ b));
    cbn; repeat split; try reflexivity; intros; lia.
Qed.

(** C6: [reserve_headroom n] succeeds exactly when [n] is at most the
    dynamic headroom [data_ptr_ - buffer_start_]; a success moves
    [data_ptr_] back by [n], grows [data_len_] by [n] and returns the new
    [data_ptr_]; a failure returns [nullptr] and leaves the buffer as it
    was. *)
Theorem reserve_headroom_exact (b : t) (n : Z) :
  wf b -> is_size_t n ->
  (is_Some (fst (reserve_headroom n b)) <-> n <= data_ptr_ b - buffer_start_ b) /\
  (n <= data_ptr_ b - buffer_start_ b ->
     reserve_headroom n b
     = (Some (data_ptr_ b - n),
        with_data_len (data_len_ b + n) (with_data_ptr (data_ptr_ b - n) b))) /\
  (data_ptr_ b - buffer_start_ b < n -> reserve_headroom n b = (None, b)).
Proof.
  intros Hwf Hn. rewrite (reserve_headroom_eq b n Hwf Hn).
  destruct (Z.gtb_spec n (data_ptr_ b - buffer_start_ b)) as [Hgt | Hle]; cbn.
  - split; [| split].
    + split; [intros [x Hx]; discriminate | lia].
    + lia.
    + reflexivity.
  - split; [| split].
    + split; [intros _; exact Hle | intros _; eexists; reflexivity].
    + reflexivity.
    + lia.
Qed.

(** C4: from the initial window of a buffer over a real region, after
    every operation of any run of [set_data_len], [reserve_headroom] and
    [reserve_tailroom] the window starts at or after [buffer_start_] and
    ends at or before [buffer_start_ + total_allocated_size_]. *)
Theorem window_invariants_hold (b : t) (ops : list window_op) :
  region_ok b -> fresh b ->
  Forall (fun o => is_size_t (op_arg o)) ops ->
  Forall window_inv (trace ops b).
Proof.
  intros Hreg Hfresh Hargs.
  pose proof (trace_wf ops b (fresh_region_wf b Hreg Hfresh) Hargs) as Hall.
  eapply Forall_impl; [exact Hall |].
  intros b' (_ & _ & _ & Hinv). exact Hinv.
Qed.

End Window.

(** ** Pool selection in [PoolManager] *)

Section Selection.
Import PoolManager Policy.

Lemma lower_bound_spec {V : Type} (m : gmap Z V) (k : Z) :
  lower_bound_result k (lower_bound m k) m.
Proof.
  unfold lower_bound.
  apply (map_fold_weak_ind (fun r m => lower_bound_result k r m)).
  - intros other [v Hv]. rewrite lookup_empty in Hv. discriminate.
  - intros i x m' r Hfresh IH.
    destruct (Z.leb_spec k i) as [Hki | Hki].
    + destruct r as [[key v] |]; cbn in IH.
      * destruct IH as (Hkey & Hk & Hmin).
        assert (Hne : i <> key) by (intros ->; rewrite Hfresh in Hkey; discriminate).
        destruct (Z.ltb_spec i key) as [Hlt | Hge]; cbn.
        -- split; [apply lookup_insert_eq |]. split; [exact Hki |].
           intros other Hother Hsome.
           destruct (decide (other = i)) as [-> | Hoi]; [lia |].
           rewrite lookup_insert_ne in Hsome by congruence.
           specialize (Hmin other Hother Hsome). lia.
        -- split; [rewrite lookup_insert_ne by exact Hne; exact Hkey |].
           split; [exact Hk |].
           intros other Hother Hsome.
           destruct (decide (other = i)) as [-> | Hoi]; [lia |].
           rewrite lookup_insert_ne in Hsome by congruence.
           apply Hmin; assumption.
      * cbn. split; [apply lookup_insert_eq |]. split; [exact Hki |].
        intros other Hother Hsome.
        destruct (decide (other = i)) as [-> | Hoi]; [lia |].
        rewrite lookup_insert_ne in Hsome by congruence.
        specialize (IH other Hsome). lia.
    + destruct r as [[key v] |]; cbn in IH |- *.
      * destruct IH as (Hkey & Hk & Hmin).
        assert (Hne : i <> key) by (intros ->; rewrite Hfresh in Hkey; discriminate).
        split; [rewrite lookup_insert_ne by exact Hne; exact Hkey |].
        split; [exact Hk |].
        intros other Hother Hsome.
        destruct (decide (other = i)) as [-> | Hoi]; [lia |].
        rewrite lookup_insert_ne in Hsome by congruence.
        apply Hmin; assumption.
      * intros other Hsome.
        destruct (decide (other = i)) as [-> | Hoi]; [lia |].
        rewrite lookup_insert_ne in Hsome by congruence.
        apply IH; assumption.
Qed.

Lemma lower_bound_best_fit (registered : gmap Z Z) (k key pool : Z) :
  lower_bound registered k = Some (key, pool) -> best_fit registered k pool.
Proof.
  intros Hlb. pose proof (lower_bound_spec registered k) as Hspec.
  rewrite Hlb in Hspec. exists key. exact Hspec.
Qed.

Lemma lower_bound_no_fit (registered : gmap Z Z) (k : Z) :
  lower_bound registered k = None -> no_fit registered k.
Proof.
  intros Hlb. pose proof (lower_bound_spec registered k) as Hspec.
  rewrite Hlb in Hspec. exact Hspec.
Qed.

Lemma best_fit_lower_bound (registered : gmap Z Z) (k pool : Z) :
  best_fit registered k pool ->
  exists key, lower_bound registered k = Some (key, pool).
Proof.
  intros (size_class & Hlook & Hge & Hmin).
  pose proof (lower_bound_spec registered k) as Hspec.
  destruct (lower_bound registered k) as [[key v] |]; cbn in Hspec.
  - destruct Hspec as (Hkey & Hk & Hmin').
    assert (Heq : key = size_class).
    { pose proof (Hmin key Hk (ex_intro _ v Hkey)).
      pose proof (Hmin' size_class Hge (ex_intro _ pool Hlook)). lia. }
    subst key. rewrite Hlook in Hkey. injection Hkey as <-.
    exists size_class. reflexivity.
  - specialize (Hspec size_class (ex_intro _ pool Hlook)). lia.
Qed.

Lemma no_fit_lower_bound (registered : gmap Z Z) (k : Z) :
  no_fit registered k -> lower_bound registered k = None.
Proof.
  intros Hnone. pose proof (lower_bound_spec registered k) as Hspec.
  destruct (lower_bound registered k) as [[key v] |]; cbn in Hspec; [| reflexivity].
  destruct Hspec as (Hkey & Hk & _).
  specialize (Hnone key (ex_intro _ v Hkey)). lia.
Qed.

Lemma lower_bound_empty (k : Z) : lower_bound (∅ : gmap Z Z) k = None.
Proof. unfold lower_bound. apply map_fold_empty. Qed.

(** [find_pool] over the pools of the two tiers. *)
Lemma find_pool_eq (numa_pools_ : gmap Z (gmap Z Z)) (size node : Z) :
  find_pool numa_pools_ size node =
    match lower_bound (pools_of numa_pools_ node) size with
    | Some (_, pool) => Some pool
    | None =>
        if negb (node =? -1) then
          match lower_bound (pools_of numa_pools_ (-1)) size with
          | Some (_, pool) => Some pool
          | None => None
          end
        else None
    end.
Proof.
  unfold find_pool, pools_of.
  destruct (numa_pools_ !! node) as [on_node |]; cbn [from_option id].
  - destruct (lower_bound on_node size) as [[key pool] |]; [reflexivity |].
    destruct (negb (node =? -1)); [| reflexivity].
    destruct (numa_pools_ !! (-1)) as [global |]; cbn [from_option id];
      [reflexivity | rewrite lower_bound_empty; reflexivity].
  - rewrite lower_bound_empty.
    destruct (negb (node =? -1)); [| reflexivity].
    destruct (numa_pools_ !! (-1)) as [global |]; cbn [from_option id];
      [reflexivity | rewrite lower_bound_empty; reflexivity].
Qed.

Context {World : Type}.
Variable allocate_buffer : Z -> World -> option Z * World.

(** C5: [allocate] asks the pool with the smallest size class that is at
    least the requested size among the pools of the requested affinity; when
    there is none and the affinity is not the global tier [-1], the pool
    chosen by the same rule among the pools of the global tier; and when
    there is none either, it returns [nullptr]. *)
Theorem allocate_best_fit_then_global (numa_pools_ : gmap Z (gmap Z Z))
    (requested_size affinity : Z) (w : World) :
  (forall pool,
     best_fit (pools_of numa_pools_ affinity) requested_size pool ->
     allocate allocate_buffer numa_pools_ requested_size affinity w
     = allocate_buffer pool w) /\
  (forall pool,
     no_fit (pools_of numa_pools_ affinity) requested_size ->
     affinity <> -1 ->
     best_fit (pools_of numa_pools_ (-1)) requested_size pool ->
     allocate allocate_buffer numa_pools_ requested_size affinity w
     = allocate_buffer pool w) /\
  (no_fit (pools_of numa_pools_ affinity) requested_size ->
   affinity = -1 \/ no_fit (pools_of numa_pools_ (-1)) requested_size ->
   allocate allocate_buffer numa_pools_ requested_size affinity w = (None, w)).
Proof.
  unfold allocate. rewrite find_pool_eq. split; [| split].
  - intros pool Hbest.
    destruct (best_fit_lower_bound _ _ _ Hbest) as [key ->]. reflexivity.
  - intros pool Hnone Hnode Hbest.
    rewrite (no_fit_lower_bound _ _ Hnone).
    destruct (Z.eqb_spec affinity (-1)) as [Heq | _]; [contradiction |].
    cbn [negb].
    destruct (best_fit_lower_bound _ _ _ Hbest) as [key ->]. reflexivity.
  - intros Hnone Hglobal.
    rewrite (no_fit_lower_bound _ _ Hnone).
    destruct (Z.eqb_spec affinity (-1)) as [Heq | Hne]; cbn [negb];
      [reflexivity |].
    destruct Hglobal as [Heq | Hnone']; [contradiction |].
    rewrite (no_fit_lower_bound _ _ Hnone'). reflexivity.
Qed.

(** C8: when the pool that [find_pool] selects has nothing to give,
    [allocate] returns [nullptr], the value of the no-pool case, after that
    one call of [allocate_buffer]: no other pool is asked. *)
Theorem allocate_exhaustion_is_final (numa_pools_ : gmap Z (gmap Z Z))
    (requested_size affinity pool : Z) (w w' : World) :
  find_pool numa_pools_ requested_size affinity = Some pool ->
  allocate_buffer pool w = (None, w') ->
  allocate allocate_buffer numa_pools_ requested_size affinity w = (None, w').
Proof.
  intros Hfound Hempty. unfold allocate. rewrite Hfound. exact Hempty.
Qed.

End Selection.

(** ** Registration in [PoolManager] *)

Section Registration.
Import PoolManager Policy.

Context {World : Type}.
Variable make_pool : Z -> Z -> Z -> Z -> Z -> World -> construction * World.

(** The loop over a list in two parts: the second part runs only when the
    first has not stopped the call. *)
Lemma configure_loop_app (node : Z) (xs ys : list PoolConfig) :
  forall (registered : gmap Z Z) (w : World),
  configure_loop make_pool node (xs ++ ys) registered w =
    match configure_loop make_pool node xs registered w with
    | (true, registered', w') => configure_loop make_pool node ys registered' w'
    | (false, registered', w') => (false, registered', w')
    end.
Proof.
  induction xs as [| x xs IH]; intros registered w; cbn [app configure_loop].
  - reflexivity.
  - destruct (registered !! buffer_size x) as [p |]; [apply IH |].
    destruct (make_pool (buffer_size x) (initial_count x) node
                        (headroom x) (tailroom x) w) as [[p | |] w'];
      [apply IH | reflexivity | reflexivity].
Qed.

(** The loop never overwrites an entry of the node's map. *)
Lemma configure_loop_keeps (node : Z) (configs : list PoolConfig) (k p : Z) :
  forall (registered : gmap Z Z) (w : World),
  registered !! k = Some p ->
  snd (fst (configure_loop make_pool node configs registered w)) !! k = Some p.
Proof.
  induction configs as [| c configs IH]; intros registered w Hk;
    cbn [configure_loop].
  - exact Hk.
  - destruct (registered !! buffer_size c) as [q |] eqn:Hc; [apply IH; exact Hk |].
    destruct (make_pool (buffer_size c) (initial_count c) node
                        (headroom c) (tailroom c) w) as [[q | |] w'];
      cbn [fst snd]; try exact Hk.
    apply IH. rewrite lookup_insert_ne; [exact Hk |].
    intros Heq. rewrite Heq in Hc. rewrite Hk in Hc. discriminate.
Qed.

Lemma configure_failure (numa_pools_ : gmap Z (gmap Z Z)) (numa_node : Z)
    (before after : list PoolConfig) (config : PoolConfig)
    (w w1 w2 : World) (registered : gmap Z Z) (c : construction) :
  configure_loop make_pool numa_node before (pools_of numa_pools_ numa_node) w
  = (true, registered, w1) ->
  registered !! buffer_size config = None ->
  make_pool (buffer_size config) (initial_count config) numa_node
            (headroom config) (tailroom config) w1 = (c, w2) ->
  failed c = true ->
  configure_pools_for_numa_node make_pool numa_pools_ numa_node
    (before ++ config :: after) w
  = (false, <[numa_node := registered]> numa_pools_, w2).
Proof.
  intros Hbefore Hfree Hmake Hfailed.
  unfold configure_pools_for_numa_node. fold (pools_of numa_pools_ numa_node).
  rewrite configure_loop_app, Hbefore. cbn [configure_loop].
  rewrite Hfree, Hmake.
  destruct c as [p | |]; [discriminate | reflexivity | reflexivity].
Qed.

(** C9: when the construction of a pool fails, [configure_pools_for_numa_node]
    stops there and returns [false]: the node's map is the one the configs
    before the failing one left, so neither the failing config nor any config
    after it is registered.  [add_pool] is the same call on one config.  (The
    report is a [bool]; exhaustion at run time is the [nullptr] of
    [allocate].) *)
Theorem configure_stops_at_failed_construction
    (numa_pools_ : gmap Z (gmap Z Z)) (numa_node : Z)
    (before after : list PoolConfig) (config : PoolConfig)
    (w w1 w2 : World) (registered : gmap Z Z) (c : construction) :
  configure_loop make_pool numa_node before (pools_of numa_pools_ numa_node) w
  = (true, registered, w1) ->
  registered !! buffer_size config = None ->
  make_pool (buffer_size config) (initial_count config) numa_node
            (headroom config) (tailroom config) w1 = (c, w2) ->
  failed c = true ->
  configure_pools_for_numa_node make_pool numa_pools_ numa_node
    (before ++ config :: after) w
  = (false, <[numa_node := registered]> numa_pools_, w2) /\
  (before = [] ->
   add_pool make_pool numa_pools_ numa_node config w
   = (false, <[numa_node := registered]> numa_pools_, w2)).
Proof.
  intros Hbefore Hfree Hmake Hfailed. split.
  - eapply configure_failure; eassumption.
  - intros ->. unfold add_pool.
    apply (configure_failure numa_pools_ numa_node [] [] config w w1 w2
             registered c Hbefore Hfree Hmake Hfailed).
Qed.

(** A loop that has run to its end has a pool for every config. *)
Lemma configure_loop_registers (node : Z) (configs : list PoolConfig) :
  forall (registered registered' : gmap Z Z) (w w' : World),
  configure_loop make_pool node configs registered w = (true, registered', w') ->
  forall c, In c configs -> is_Some (registered' !! buffer_size c).
Proof.
  induction configs as [| x configs IH]; intros registered registered' w w' Hrun c Hin.
  - destruct Hin.
  - cbn [configure_loop] in Hrun.
    destruct (registered !! buffer_size x) as [p |] eqn:Hx.
    + destruct Hin as [<- | Hin]; [| exact (IH _ _ _ _ Hrun c Hin)].
      pose proof (configure_loop_keeps node configs (buffer_size x) p
                    registered w Hx) as Hkept.
      rewrite Hrun in Hkept. cbn in Hkept. eexists. exact Hkept.
    + destruct (make_pool (buffer_size x) (initial_count x) node
                          (headroom x) (tailroom x) w) as [[p | |] w1];
        try discriminate.
      destruct Hin as [<- | Hin]; [| exact (IH _ _ _ _ Hrun c Hin)].
      pose proof (configure_loop_keeps node configs (buffer_size x) p
                    (<[buffer_size x := p]> registered) w1
                    (lookup_insert_eq _ _ _)) as Hkept.
      rewrite Hrun in Hkept. cbn in Hkept. eexists. exact Hkept.
Qed.

Lemma configure_skip (numa_pools_ : gmap Z (gmap Z Z)) (numa_node : Z)
    (before after : list PoolConfig) (config : PoolConfig)
    (w w1 : World) (registered : gmap Z Z) (existing : Z) :
  configure_loop make_pool numa_node before (pools_of numa_pools_ numa_node) w
  = (true, registered, w1) ->
  registered !! buffer_size config = Some existing ->
  configure_loop make_pool numa_node (before ++ config :: after)
    (pools_of numa_pools_ numa_node) w
  = configure_loop make_pool numa_node after registered w1.
Proof.
  intros Hbefore Htaken.
  rewrite configure_loop_app, Hbefore. cbn [configure_loop].
  rewrite Htaken. reflexivity.
Qed.

(** The call once the loop has passed a config whose size is taken: the
    configs after it, run from the map and world the configs before left. *)
Lemma configure_after_skip (numa_pools_ : gmap Z (gmap Z Z)) (numa_node : Z)
    (before after : list PoolConfig) (config : PoolConfig)
    (w w1 : World) (registered : gmap Z Z) (existing : Z) :
  configure_loop make_pool numa_node before (pools_of numa_pools_ numa_node) w
  = (true, registered, w1) ->
  registered !! buffer_size config = Some existing ->
  configure_pools_for_numa_node make_pool numa_pools_ numa_node
    (before ++ config :: after) w
  = match configure_loop make_pool numa_node after registered w1 with
    | (ok, registered', w') => (ok, <[numa_node := registered']> numa_pools_, w')
    end.
Proof.
  intros Hbefore Htaken.
  unfold configure_pools_for_numa_node. fold (pools_of numa_pools_ numa_node).
  rewrite (configure_skip _ _ _ _ _ _ _ _ _ Hbefore Htaken). reflexivity.
Qed.

(** C10: a config whose size is already registered for the node is skipped
    and the loop goes on.  The call behaves as if the config were not in the
    list: it is the run of the configs after it from the map and the world
    that the configs before it left, and when it is over the size still maps
    to the pool that was registered before.  The config right after the
    skipped one is processed as any other: if its size is free, its pool is
    constructed and, on success, is registered under that size when the call
    returns, and a failure of that construction makes the call return
    [false]; and a call that returns [true] has registered a pool for every
    config after the skipped one.  [add_pool] on a config whose size is
    registered changes nothing and returns [true]. *)
Theorem configure_skips_registered_size
    (numa_pools_ : gmap Z (gmap Z Z)) (numa_node : Z)
    (before after : list PoolConfig) (config : PoolConfig)
    (w w1 : World) (registered : gmap Z Z) (existing : Z) :
  configure_loop make_pool numa_node before (pools_of numa_pools_ numa_node) w
  = (true, registered, w1) ->
  registered !! buffer_size config = Some existing ->
  let result :=
    configure_pools_for_numa_node make_pool numa_pools_ numa_node
      (before ++ config :: after) w in
  result
  = configure_pools_for_numa_node make_pool numa_pools_ numa_node
      (before ++ after) w /\
  result
  = match configure_loop make_pool numa_node after registered w1 with
    | (ok, registered', w') => (ok, <[numa_node := registered']> numa_pools_, w')
    end /\
  pools_of (snd (fst result)) numa_node !! buffer_size config = Some existing /\
  (forall next rest c w2,
     after = next :: rest ->
     registered !! buffer_size next = None ->
     make_pool (buffer_size next) (initial_count next) numa_node
               (headroom next) (tailroom next) w1 = (c, w2) ->
     match c with
     | Constructed new_pool =>
         pools_of (snd (fst result)) numa_node !! buffer_size next
         = Some new_pool /\
         result
         = match configure_loop make_pool numa_node rest
                   (<[buffer_size next := new_pool]> registered) w2 with
           | (ok, registered', w') =>
               (ok, <[numa_node := registered']> numa_pools_, w')
           end
     | ThrowsBadAlloc | ThrowsException =>
         result = (false, <[numa_node := registered]> numa_pools_, w2)
     end) /\
  (fst (fst result) = true ->
   forall c, In c after ->
   is_Some (pools_of (snd (fst result)) numa_node !! buffer_size c)) /\
  (before = [] ->
   add_pool make_pool numa_pools_ numa_node config w = (true, numa_pools_, w)).
Proof.
  intros Hbefore Htaken result.
  assert (Hresult :
            result
            = match configure_loop make_pool numa_node after registered w1 with
              | (ok, registered', w') =>
                  (ok, <[numa_node := registered']> numa_pools_, w')
              end)
    by (exact (configure_after_skip _ _ _ _ _ _ _ _ _ Hbefore Htaken)).
  split; [| split; [exact Hresult | split; [| split; [| split]]]].
  - rewrite Hresult.
    unfold configure_pools_for_numa_node. fold (pools_of numa_pools_ numa_node).
    rewrite configure_loop_app, Hbefore. reflexivity.
  - rewrite Hresult.
    pose proof (configure_loop_keeps numa_node after (buffer_size config)
                  existing registered w1 Htaken) as Hkept.
    destruct (configure_loop make_pool numa_node after registered w1)
      as [[ok registered'] w'].
    cbn [fst snd] in *. unfold pools_of. rewrite lookup_insert_eq. exact Hkept.
  - intros next rest c w2 -> Hfree Hmake. rewrite Hresult.
    cbn [configure_loop]. rewrite Hfree, Hmake.
    destruct c as [new_pool | |]; [| reflexivity | reflexivity].
    split; [| reflexivity].
    pose proof (configure_loop_keeps numa_node rest (buffer_size next) new_pool
                  (<[buffer_size next := new_pool]> registered) w2
                  (lookup_insert_eq _ _ _)) as Hkept.
    destruct (configure_loop make_pool numa_node rest
                (<[buffer_size next := new_pool]> registered) w2)
      as [[ok registered'] w'].
    cbn [fst snd] in *. unfold pools_of. rewrite lookup_insert_eq. exact Hkept.
  - rewrite Hresult. intros Hok c Hin.
    destruct (configure_loop make_pool numa_node after registered w1)
      as [[ok registered'] w'] eqn:Hrun.
    cbn [fst snd] in *. subst ok.
    unfold pools_of. rewrite lookup_insert_eq. cbn [from_option id].
    exact (configure_loop_registers numa_node after _ _ _ _ Hrun c Hin).
  - intros ->. cbn [configure_loop] in Hbefore.
    injection Hbefore as Hreg Hw. subst registered w1.
    unfold add_pool, configure_pools_for_numa_node.
    fold (pools_of numa_pools_ numa_node). cbn [configure_loop].
    rewrite Htaken. f_equal. f_equal.
    unfold pools_of in *.
    destruct (numa_pools_ !! numa_node) as [on_node |] eqn:Hnode;
      cbn [from_option id] in *.
    + apply insert_id. exact Hnode.
    + rewrite lookup_empty in Htaken. discriminate.
Qed.

End Registration.

(** ** [PacketBuffer::release] *)

Section LastReference.
Import PacketBuffer.

Variable deallocate_buffer : Z -> Z -> Memory -> Memory.

(** C3: on a buffer that has an owning pool, [release] with a reference
    count of 1 before the decrement resets the window to
    [buffer_start_ + headroom_] with length 0, clears [next_], sets the state
    of the attached record (when there is one) to [Released], and then calls
    [deallocate_buffer] of the owning pool on the buffer. *)
Theorem release_last_reference (this pool : Z) (b : t) (m : Memory) :
  buffers m !! this = Some b ->
  ref_count_ b = 1 ->
  owning_pool_ b = Some pool ->
  exists (m' : Memory) (b' : t),
    release deallocate_buffer this m = Some (deallocate_buffer pool this m') /\
    buffers m' !! this = Some b' /\
    data_ptr_ b' = ptr_add (buffer_start_ b) (headroom_ b) /\
    (region_ok b -> fresh b') /\
    data_len_ b' = 0 /\
    next_ b' = None /\
    ref_count_ b' = 0 /\
    (forall md r, metadata_ b = Some md -> records m !! md = Some r ->
       records m' !! md
       = Some (BufferMetadata.set_state BufferMetadata.Released r)) /\
    pools m' = pools m.
Proof.
  intros Hb Hcount Hpool. unfold release. rewrite Hb, Hcount.
  cbn [Z.eqb Pos.eqb with_ref_count owning_pool_ metadata_]. rewrite Hpool.
  eexists. eexists. split; [reflexivity |].
  split.
  { destruct (metadata_ b); cbn [set_record_state with_records with_buffers buffers];
      apply lookup_insert_eq. }
  split; [reflexivity |].
  split.
  { intros (Hs & Hh & He). unfold fresh. cbn.
    unfold ptr_add. rewrite to_size_t_small by (unfold is_size_t; lia).
    split; reflexivity. }
  split; [reflexivity |]. split; [reflexivity |]. split; [reflexivity |].
  split.
  - intros md r Hmd Hr. rewrite Hmd. cbn. rewrite lookup_alter_eq, Hr. reflexivity.
  - destruct (metadata_ b); reflexivity.
Qed.

End LastReference.

(** ** The properties at work on concrete buffers and pools *)

(** Closes a goal made of comparisons and equations between closed terms. *)
Ltac by_evaluation :=
  vm_compute;
  repeat match goal with
         | |- _ /\ _ => split
         | |- True => exact I
         | |- _ = _ => reflexivity
         | |- _ -> False => let H := fresh in intros H; discriminate H
         end.

Section ClampLaw.
Import PacketBuffer.

(** The clamp of [set_data_len] on a freshly constructed buffer, in terms of
    the constructor's arguments: asking for one byte more than the payload
    capacity is refused only when there is no tailroom behind the payload. *)
Lemma set_data_len_past_capacity (pool md : option Z) (blk blk_size : Z)
    (start payload hr tr node : Z) :
  0 <= start -> 0 <= hr -> 0 <= payload -> 0 <= tr ->
  start + hr + payload + tr < 2 ^ 64 ->
  let b := ctor pool blk blk_size start payload hr tr md node in
  capacity b = payload /\
  data_len (set_data_len (capacity b + 1) b)
  = if tr =? 0 then payload else payload + 1.
Proof.
  intros Hs Hh Hp Ht Hfit b.
  assert (Htotal : total_allocated_size_ b = hr + payload + tr).
  { unfold b, ctor; cbn [total_allocated_size_].
    rewrite (to_size_t_small (hr + payload)) by (unfold is_size_t; lia).
    apply to_size_t_small. unfold is_size_t. lia. }
  assert (Hptr : data_ptr_ b = start + hr).
  { unfold b, ctor; cbn [data_ptr_]. unfold ptr_add.
    apply to_size_t_small. unfold is_size_t. lia. }
  assert (Hcap : capacity b = payload).
  { unfold capacity. rewrite Htotal. cbn [headroom_ tailroom_ b ctor].
    rewrite (to_size_t_small (hr + payload + tr - hr)) by (unfold is_size_t; lia).
    rewrite to_size_t_small by (unfold is_size_t; lia). lia. }
  split; [exact Hcap |].
  assert (Hwf : wf b).
  { unfold wf, window_inv. rewrite Htotal, Hptr. cbn [buffer_start_ data_len_ b ctor].
    lia. }
  rewrite Hcap, (set_data_len_eq b (payload + 1) Hwf).
  rewrite Htotal, Hptr. cbn [data_len with_data_len data_len_ buffer_start_ b ctor].
  destruct (Z.eqb_spec tr 0) as [Hz | Hnz];
    destruct (Z.leb_spec (start + hr + (payload + 1)) (start + (hr + payload + tr)));
    lia.
Qed.

(** A buffer constructed over a block of memory that holds its three parts
    starts with the initial window over a real region. *)
Lemma ctor_fresh_region (pool md : option Z) (blk blk_size : Z)
    (start payload hr tr node : Z) :
  0 <= start -> 0 <= hr -> 0 <= payload -> 0 <= tr ->
  start + hr + payload + tr < 2 ^ 64 ->
  let b := ctor pool blk blk_size start payload hr tr md node in
  region_ok b /\ fresh b.
Proof.
  intros Hs Hh Hp Ht Hfit b.
  assert (Htotal : total_allocated_size_ b = hr + payload + tr).
  { unfold b, ctor; cbn [total_allocated_size_].
    rewrite (to_size_t_small (hr + payload)) by (unfold is_size_t; lia).
    apply to_size_t_small. unfold is_size_t. lia. }
  assert (Hptr : data_ptr_ b = start + hr).
  { unfold b, ctor; cbn [data_ptr_]. unfold ptr_add.
    apply to_size_t_small. unfold is_size_t. lia. }
  unfold region_ok, fresh. rewrite Htotal, Hptr.
  cbn [buffer_start_ headroom_ data_len_ b ctor]. lia.
Qed.

(** C2: the buffer of the test [DataManipulation] (32 bytes of headroom, 128
    of payload, 16 of tailroom), freshly constructed: [set_data_len] with
    [capacity() + 1] stores 129, one more than the capacity. *)
Example set_data_len_past_capacity_with_tailroom :
  let b := ctor (Some 4096) 8192 296 8312 128 32 16 (Some 8192) (-1) in
  fresh b /\ region_ok b /\
  capacity b = 128 /\
  data_len (set_data_len (capacity b + 1) b) = 129.
Proof. by_evaluation. Qed.

End ClampLaw.

Section WindowExamples.
Import PacketBuffer.

Lemma set_data_len_truncates_witness :
  wf Orphan.buffer /\ is_size_t 200 /\
  data_len (set_data_len 200 Orphan.buffer) = 133 /\
  data_len (set_data_len 100 Orphan.buffer) = 100.
Proof.
  assert (Hwf : wf Orphan.buffer) by by_evaluation.
  assert (H200 : is_size_t 200) by by_evaluation.
  assert (H100 : is_size_t 100) by by_evaluation.
  split; [exact Hwf |]. split; [exact H200 |]. split.
  - destruct (set_data_len_truncates Orphan.buffer 200 Hwf H200)
      as (_ & Hclamp & _).
    rewrite Hclamp; by_evaluation.
  - destruct (set_data_len_truncates Orphan.buffer 100 Hwf H100)
      as (Hfit & _).
    apply Hfit. by_evaluation.
Defined.

Lemma reserve_headroom_exact_witness :
  wf Orphan.buffer /\ is_size_t 27 /\ is_size_t 28 /\
  reserve_headroom 27 Orphan.buffer
  = (Some 8312, with_data_len 42 (with_data_ptr 8312 Orphan.buffer)) /\
  reserve_headroom 28 Orphan.buffer = (None, Orphan.buffer).
Proof.
  assert (Hwf : wf Orphan.buffer) by by_evaluation.
  assert (H27 : is_size_t 27) by by_evaluation.
  assert (H28 : is_size_t 28) by by_evaluation.
  split; [exact Hwf |]. split; [exact H27 |]. split; [exact H28 |]. split.
  - destruct (reserve_headroom_exact Orphan.buffer 27 Hwf H27)
      as (_ & Hok & _).
    rewrite Hok; by_evaluation.
  - destruct (reserve_headroom_exact Orphan.buffer 28 Hwf H28)
      as (_ & _ & Hfail).
    apply Hfail. by_evaluation.
Defined.

Lemma window_invariants_hold_witness :
  let b := ctor None 8192 296 8312 128 32 16 (Some 8192) (-1) in
  let ops := [SetDataLen 200; ReserveHeadroom 40; ReserveHeadroom 32;
              ReserveTailroom 3; SetDataLen 7; ReserveTailroom 170] in
  region_ok b /\ fresh b /\
  Forall (fun o => is_size_t (op_arg o)) ops /\
  Forall window_inv (trace ops b).
Proof.
  intros b ops.
  assert (Hreg : region_ok b) by by_evaluation.
  assert (Hfresh : fresh b) by by_evaluation.
  assert (Hargs : Forall (fun o => is_size_t (op_arg o)) ops).
  { repeat constructor; by_evaluation. }
  split; [exact Hreg |]. split; [exact Hfresh |]. split; [exact Hargs |].
  exact (window_invariants_hold b ops Hreg Hfresh Hargs).
Defined.

End WindowExamples.

Section ManagerExamples.
Import PacketBuffer PoolManager Policy.

Lemma allocate_best_fit_then_global_witness :
  best_fit (pools_of Scenario.numa_pools_ 0) 100 4096 /\
  Scenario.allocate Scenario.numa_pools_ 100 0 Scenario.memory
  = PoolModel.allocate_buffer 4096 Scenario.memory /\
  no_fit (pools_of Scenario.numa_pools_ 7) 600 /\
  best_fit (pools_of Scenario.numa_pools_ (-1)) 600 15872 /\
  Scenario.allocate Scenario.numa_pools_ 600 7 Scenario.memory
  = PoolModel.allocate_buffer 15872 Scenario.memory /\
  no_fit (pools_of Scenario.numa_pools_ 0) 2048 /\
  no_fit (pools_of Scenario.numa_pools_ (-1)) 2048 /\
  Scenario.allocate Scenario.numa_pools_ 2048 0 Scenario.memory
  = (None, Scenario.memory).
Proof.
  assert (Hnear : best_fit (pools_of Scenario.numa_pools_ 0) 100 4096).
  { apply (lower_bound_best_fit _ _ 128). vm_compute. reflexivity. }
  assert (Hnone7 : no_fit (pools_of Scenario.numa_pools_ 7) 600).
  { apply lower_bound_no_fit. vm_compute. reflexivity. }
  assert (Hglobal : best_fit (pools_of Scenario.numa_pools_ (-1)) 600 15872).
  { apply (lower_bound_best_fit _ _ 1024). vm_compute. reflexivity. }
  assert (Hnone0 : no_fit (pools_of Scenario.numa_pools_ 0) 2048).
  { apply lower_bound_no_fit. vm_compute. reflexivity. }
  assert (Hnoneg : no_fit (pools_of Scenario.numa_pools_ (-1)) 2048).
  { apply lower_bound_no_fit. vm_compute. reflexivity. }
  split; [exact Hnear |]. split.
  { destruct (allocate_best_fit_then_global PoolModel.allocate_buffer
                Scenario.numa_pools_ 100 0 Scenario.memory) as (Hfit & _).
    exact (Hfit 4096 Hnear). }
  split; [exact Hnone7 |]. split; [exact Hglobal |]. split.
  { destruct (allocate_best_fit_then_global PoolModel.allocate_buffer
                Scenario.numa_pools_ 600 7 Scenario.memory) as (_ & Hfall & _).
    apply (Hfall 15872 Hnone7); [discriminate | exact Hglobal]. }
  split; [exact Hnone0 |]. split; [exact Hnoneg |].
  destruct (allocate_best_fit_then_global PoolModel.allocate_buffer
              Scenario.numa_pools_ 2048 0 Scenario.memory) as (_ & _ & Hnull).
  apply Hnull; [exact Hnone0 | right; exact Hnoneg].
Defined.

Lemma allocate_exhaustion_is_final_witness :
  find_pool Exhaustion.numa_pools_ 100 0 = Some 4096 /\
  PoolModel.allocate_buffer 4096 Exhaustion.memory = (None, Exhaustion.memory) /\
  fst (PoolModel.allocate_buffer 4512 Exhaustion.memory) = Some 4680 /\
  Scenario.allocate Exhaustion.numa_pools_ 100 0 Exhaustion.memory
  = (None, Exhaustion.memory).
Proof.
  assert (Hfound : find_pool Exhaustion.numa_pools_ 100 0 = Some 4096)
    by (vm_compute; reflexivity).
  assert (Hempty : PoolModel.allocate_buffer 4096 Exhaustion.memory
                   = (None, Exhaustion.memory))
    by (vm_compute; reflexivity).
  split; [exact Hfound |]. split; [exact Hempty |].
  split; [vm_compute; reflexivity |].
  exact (allocate_exhaustion_is_final PoolModel.allocate_buffer
           Exhaustion.numa_pools_ 100 0 4096 Exhaustion.memory
           Exhaustion.memory Hfound Hempty).
Defined.

Lemma configure_stops_at_failed_construction_witness :
  let before := [mkPoolConfig 128 2 32 0] in
  let config := mkPoolConfig (2 ^ 40) 4 0 0 in
  let after := [mkPoolConfig 512 2 32 0] in
  let done := configure_loop PoolModel.make_unique 0 before (pools_of ∅ 0)
                Scenario.boot in
  done = (true, snd (fst done), snd done) /\
  snd (fst done) !! buffer_size config = None /\
  PoolModel.make_unique (buffer_size config) (initial_count config) 0
    (headroom config) (tailroom config) (snd done)
  = (ThrowsBadAlloc, snd done) /\
  Scenario.configure ∅ 0 (before ++ config :: after) Scenario.boot
  = (false, <[0 := snd (fst done)]> ∅, snd done) /\
  snd (fst done) !! 512 = None.
Proof.
  intros before config after done.
  assert (Hdone : done = (true, snd (fst done), snd done))
    by (vm_compute; reflexivity).
  assert (Hfree : snd (fst done) !! buffer_size config = None)
    by (vm_compute; reflexivity).
  assert (Hthrows :
            PoolModel.make_unique (buffer_size config) (initial_count config) 0
              (headroom config) (tailroom config) (snd done)
            = (ThrowsBadAlloc, snd done))
    by (vm_compute; reflexivity).
  split; [exact Hdone |]. split; [exact Hfree |]. split; [exact Hthrows |].
  split; [| vm_compute; reflexivity].
  exact (proj1 (configure_stops_at_failed_construction PoolModel.make_unique
                  ∅ 0 before after config Scenario.boot (snd done) (snd done)
                  (snd (fst done)) ThrowsBadAlloc Hdone Hfree Hthrows eq_refl)).
Defined.

Lemma configure_skips_registered_size_witness :
  let before := [mkPoolConfig 256 2 16 0] in
  let config := mkPoolConfig 128 99 0 0 in
  let next := mkPoolConfig 2048 1 0 0 in
  let after := [next; mkPoolConfig 4096 1 0 0] in
  let done := configure_loop PoolModel.make_unique 0 before
                (pools_of Scenario.numa_pools_ 0) Scenario.memory in
  let made := PoolModel.make_unique (buffer_size next) (initial_count next) 0
                (headroom next) (tailroom next) (snd done) in
  let result := Scenario.configure Scenario.numa_pools_ 0
                  (before ++ config :: after) Scenario.memory in
  done = (true, snd (fst done), snd done) /\
  snd (fst done) !! buffer_size config = Some 4096 /\
  snd (fst done) !! buffer_size next = None /\
  made = (Constructed 27104, snd made) /\
  result
  = Scenario.configure Scenario.numa_pools_ 0 (before ++ after) Scenario.memory /\
  pools_of (snd (fst result)) 0 !! 128 = Some 4096 /\
  pools_of (snd (fst result)) 0 !! 2048 = Some 27104 /\
  fst (fst result) = true /\
  is_Some (pools_of (snd (fst result)) 0 !! 4096) /\
  add_pool PoolModel.make_unique Scenario.numa_pools_ 0 config Scenario.memory
  = (true, Scenario.numa_pools_, Scenario.memory).
Proof.
  intros before config next after done made result.
  assert (Hdone : done = (true, snd (fst done), snd done))
    by (vm_compute; reflexivity).
  assert (Htaken : snd (fst done) !! buffer_size config = Some 4096)
    by (vm_compute; reflexivity).
  assert (Hfree : snd (fst done) !! buffer_size next = None)
    by (vm_compute; reflexivity).
  assert (Hmade : made = (Constructed 27104, snd made))
    by (vm_compute; reflexivity).
  assert (Hok : fst (fst result) = true) by (vm_compute; reflexivity).
  split; [exact Hdone |]. split; [exact Htaken |]. split; [exact Hfree |].
  split; [exact Hmade |].
  destruct (configure_skips_registered_size PoolModel.make_unique
              Scenario.numa_pools_ 0 before after config Scenario.memory
              (snd done) (snd (fst done)) 4096 Hdone Htaken)
    as (Hskip & _ & Hkept & Hnext & Hall & _).
  split; [exact Hskip |]. split; [exact Hkept |].
  split; [exact (proj1 (Hnext next [mkPoolConfig 4096 1 0 0]
                          (Constructed 27104) (snd made) eq_refl Hfree Hmade)) |].
  split; [exact Hok |].
  split; [exact (Hall Hok (mkPoolConfig 4096 1 0 0) (or_intror (or_introl eq_refl))) |].
  assert (Hnow : pools_of Scenario.numa_pools_ 0 !! buffer_size config = Some 4096)
    by (vm_compute; reflexivity).
  destruct (configure_skips_registered_size PoolModel.make_unique
              Scenario.numa_pools_ 0 [] [] config Scenario.memory
              Scenario.memory (pools_of Scenario.numa_pools_ 0) 4096
              eq_refl Hnow)
    as (_ & _ & _ & _ & _ & Hadd).
  exact (Hadd eq_refl).
Defined.

Lemma release_last_reference_witness :
  let b := PacketBuffer.mk 4352 160 4384 0 32 0 1 None (Some 4232) 0 (Some 4096) in
  buffers Exhaustion.memory !! 4264 = Some b /\
  ref_count_ b = 1 /\
  owning_pool_ b = Some 4096 /\
  exists (m' : Memory) (b' : t),
    release PoolModel.deallocate_buffer 4264 Exhaustion.memory
    = Some (PoolModel.deallocate_buffer 4096 4264 m') /\
    buffers m' !! 4264 = Some b' /\
    fresh b' /\ next_ b' = None /\ ref_count_ b' = 0 /\
    (BufferMetadata.get_state <$> records m' !! 4232)
    = Some BufferMetadata.Released.
Proof.
  intros b.
  assert (Hb : buffers Exhaustion.memory !! 4264 = Some b) by (vm_compute; reflexivity).
  assert (Hrec : records Exhaustion.memory !! 4232
                 = Some (BufferMetadata.set_state BufferMetadata.Allocated
                           (BufferMetadata.ctor 0)))
    by (vm_compute; reflexivity).
  split; [exact Hb |]. split; [reflexivity |]. split; [reflexivity |].
  destruct (release_last_reference PoolModel.deallocate_buffer 4264 4096 b
              Exhaustion.memory Hb eq_refl eq_refl)
    as (m' & b' & Hrel & Hb' & _ & Hfresh & _ & Hnext & Hcount & Hstate & _).
  exists m', b'. split; [exact Hrel |]. split; [exact Hb' |].
  split; [apply Hfresh; by_evaluation |].
  split; [exact Hnext |]. split; [exact Hcount |].
  rewrite (Hstate 4232 _ eq_refl Hrec). reflexivity.
Defined.

(** C3, on a buffer without an owning pool: the last [release] brings the
    reference count to 0 and does nothing else; the window keeps its 15
    bytes starting 5 bytes before [buffer_start_ + headroom_], and the record
    stays [Allocated]. *)
Lemma release_without_pool_keeps_window :
  ref_count Orphan.buffer = 1 /\
  owning_pool_ Orphan.buffer = None /\
  match release PoolModel.deallocate_buffer Orphan.this Orphan.memory with
  | Some m' =>
      match buffers m' !! Orphan.this, records m' !! Orphan.record with
      | Some b', Some r' =>
          ref_count b' = 0 /\
          data_len b' = 15 /\
          data b' = 8339 /\
          buffer_start_ b' + headroom_ b' = 8344 /\
          BufferMetadata.get_state r' = BufferMetadata.Allocated /\
          pools m' = ∅
      | _, _ => False
      end
  | None => False
  end.
Proof. by_evaluation. Qed.

(** C1, second request: with a 1024-byte pool on node 0, 600 bytes asked on
    node 0 are served by that pool; the buffer has node-0 affinity and does
    not belong to the pool of the global tier. *)
Lemma request_600_on_node_0_is_served_by_node_0 :
  fst (fst Scenario.configured) = true /\
  pools_of Scenario.numa_pools_ 0 !! 1024 = Some 10648 /\
  pools_of Scenario.numa_pools_ (-1) !! 1024 = Some 15872 /\
  match Scenario.returned_buffer
          (Scenario.allocate Scenario.numa_pools_ 600 0 Scenario.memory) with
  | Some b =>
      get_numa_node b = 0 /\ (get_numa_node b = -1 -> False) /\
      owning_pool_ b = Some 10648
  | None => False
  end.
Proof. by_evaluation. Qed.

(** C1: pools of 128, 512 and 1024 bytes on node 0 and one of 1024 bytes on
    the global tier.  100 bytes on node 0: a buffer of capacity at least 128
    with node-0 affinity.  600 bytes on node 0: a buffer of capacity at least
    1024 from node 0's own 1024-byte pool, with node-0 affinity.  2048 bytes
    on node 0: no buffer. *)
Theorem size_class_scenario :
  fst (fst Scenario.configured) = true /\
  (exists b,
     Scenario.returned_buffer
       (Scenario.allocate Scenario.numa_pools_ 100 0 Scenario.memory) = Some b /\
     128 <= capacity b /\ get_numa_node b = 0) /\
  (exists b,
     Scenario.returned_buffer
       (Scenario.allocate Scenario.numa_pools_ 600 0 Scenario.memory) = Some b /\
     1024 <= capacity b /\ get_numa_node b = 0 /\
     owning_pool_ b = pools_of Scenario.numa_pools_ 0 !! 1024) /\
  fst (Scenario.allocate Scenario.numa_pools_ 2048 0 Scenario.memory) = None.
Proof.
  split; [vm_compute; reflexivity |]. split; [| split].
  - eexists. split; [vm_compute; reflexivity |]. by_evaluation.
  - eexists. split; [vm_compute; reflexivity |]. by_evaluation.
  - vm_compute. reflexivity.
Qed.

(** The fallback itself: without the 1024-byte pool on node 0 (the
    configuration of tests/pool_manager_test.cpp), 600 bytes asked on node 0
    come from the global tier, with global affinity. *)
Lemma fallback_without_1024_on_node_0 :
  match Scenario.configure ∅ 0
          [mkPoolConfig 128 10 32 0; mkPoolConfig 512 5 64 0] Scenario.boot with
  | (ok0, numa_pools0, m0) =>
      match Scenario.configure numa_pools0 (-1) Scenario.configs_node_global m0 with
      | (ok1, numa_pools1, m1) =>
          ok0 && ok1 = true /\
          match Scenario.returned_buffer (Scenario.allocate numa_pools1 600 0 m1) with
          | Some b =>
              capacity b = 1024 /\ get_numa_node b = -1 /\
              owning_pool_ b = pools_of numa_pools1 (-1) !! 1024
          | None => False
          end
      end
  end.
Proof. by_evaluation. Qed.

End ManagerExamples.

(** * Further properties of the code *)

(** ** More on the window of [PacketBuffer] *)

Section WindowAlgebra.
Import PacketBuffer.

(** X1: [reserve_tailroom n] succeeds exactly when [n] is at most the
    dynamic tailroom, the room between the end of the window and the end of
    the region; a success grows [data_len_] by [n], leaves [data_ptr_] alone
    and returns the old end of the window; a failure returns [nullptr] and
    leaves the buffer as it was. *)
Theorem reserve_tailroom_exact (b : t) (n : Z) :
  wf b -> is_size_t n ->
  let room := buffer_start_ b + total_allocated_size_ b
              - (data_ptr_ b + data_len_ b) in
  (is_Some (fst (reserve_tailroom n b)) <-> n <= room) /\
  (n <= room ->
     reserve_tailroom n b
     = (Some (data_ptr_ b + data_len_ b), with_data_len (data_len_ b + n) b)) /\
  (room < n -> reserve_tailroom n b = (None, b)).
Proof.
  intros Hwf Hn room. rewrite (reserve_tailroom_eq b n Hwf Hn). fold room.
  destruct (Z.gtb_spec n room) as [Hgt | Hle]; cbn.
  - split; [| split].
    + split; [intros [x Hx]; discriminate | lia].
    + lia.
    + reflexivity.
  - split; [| split].
    + split; [intros _; exact Hle | intros _; eexists; reflexivity].
    + reflexivity.
    + lia.
Qed.

(** X2: no window operation changes what was fixed at construction or the
    ownership state: region, configured headroom and tailroom, capacity,
    reference count, chain link, record, NUMA node and owning pool. *)
Theorem window_ops_keep_configuration (o : window_op) (b : t) :
  buffer_start_ (apply_op o b) = buffer_start_ b /\
  total_allocated_size_ (apply_op o b) = total_allocated_size_ b /\
  headroom_size (apply_op o b) = headroom_size b /\
  tailroom_size (apply_op o b) = tailroom_size b /\
  capacity (apply_op o b) = capacity b /\
  ref_count (apply_op o b) = ref_count b /\
  next_buffer (apply_op o b) = next_buffer b /\
  metadata (apply_op o b) = metadata b /\
  get_numa_node (apply_op o b) = get_numa_node b /\
  owning_pool_ (apply_op o b) = owning_pool_ b.
Proof.
  destruct o as [n | n | n]; cbn [apply_op].
  - unfold set_data_len.
    destruct (n >? _); repeat split; reflexivity.
  - unfold reserve_headroom.
    destruct (n >? _); repeat split; reflexivity.
  - unfold reserve_tailroom.
    destruct (n >? _); repeat split; reflexivity.
Qed.

(** X3: [set_data_len] looks at the position of the window only, not at its
    length: of two calls in a row the second decides, and a call repeated
    changes nothing more. *)
Theorem set_data_len_last_wins (n1 n2 : Z) (b : t) :
  set_data_len n2 (set_data_len n1 b) = set_data_len n2 b /\
  set_data_len n1 (set_data_len n1 b) = set_data_len n1 b.
Proof.
  assert (Hlast : forall a c, set_data_len c (set_data_len a b) = set_data_len c b).
  { intros a c. unfold set_data_len.
    destruct (a >? _); destruct (c >? _) eqn:Hc; cbn; rewrite ?Hc; reflexivity. }
  split; apply Hlast.
Qed.

(** X4: headroom reservations add up: reserving [a] and then [c] bytes, when
    both fit in the dynamic headroom, is reserving [a + c] at once; when only
    [a] fits, the second call fails and the first reservation stays. *)
Theorem reserve_headroom_adds_up (b : t) (a c : Z) :
  wf b -> is_size_t a -> is_size_t c ->
  a <= data_ptr_ b - buffer_start_ b ->
  (a + c <= data_ptr_ b - buffer_start_ b ->
     reserve_headroom c (snd (reserve_headroom a b))
     = reserve_headroom (a + c) b) /\
  (data_ptr_ b - buffer_start_ b < a + c ->
     reserve_headroom c (snd (reserve_headroom a b))
     = (None, snd (reserve_headroom a b))).
Proof.
  intros Hwf Ha Hc Hfit.
  pose proof (apply_op_wf (ReserveHeadroom a) b Hwf Ha) as Hwf1.
  cbn [apply_op] in Hwf1.
  rewrite (reserve_headroom_eq _ c Hwf1 Hc).
  rewrite (reserve_headroom_eq b a Hwf Ha).
  destruct (Z.gtb_spec a (data_ptr_ b - buffer_start_ b)) as [Hbad | _]; [lia |].
  cbn [snd with_data_len with_data_ptr data_ptr_ data_len_ buffer_start_].
  destruct Hwf as (Hs & He & Hl & Hlo & Hhi). unfold is_size_t in Ha, Hc.
  split.
  - intros Hboth.
    rewrite (reserve_headroom_eq b (a + c)); [| repeat split; lia | unfold is_size_t; lia].
    destruct (Z.gtb_spec c (data_ptr_ b - a - buffer_start_ b)) as [Hbad | _]; [lia |].
    destruct (Z.gtb_spec (a + c) (data_ptr_ b - buffer_start_ b)) as [Hbad | _]; [lia |].
    unfold with_data_len, with_data_ptr; cbn.
    replace (data_ptr_ b - a - c) with (data_ptr_ b - (a + c)) by lia.
    replace (data_len_ b + a + c) with (data_len_ b + (a + c)) by lia.
    reflexivity.
  - intros Hover.
    destruct (Z.gtb_spec c (data_ptr_ b - a - buffer_start_ b)) as [_ | Hbad]; [| lia].
    reflexivity.
Qed.

(** X5: the two ends do not interfere: a headroom and a tailroom reservation
    give the same buffer in either order, each succeeding or failing as it
    would alone. *)
Theorem reservations_commute (b : t) (h tl : Z) :
  wf b -> is_size_t h -> is_size_t tl ->
  snd (reserve_tailroom tl (snd (reserve_headroom h b)))
  = snd (reserve_headroom h (snd (reserve_tailroom tl b))) /\
  (is_Some (fst (reserve_tailroom tl (snd (reserve_headroom h b))))
   <-> is_Some (fst (reserve_tailroom tl b))) /\
  (is_Some (fst (reserve_headroom h (snd (reserve_tailroom tl b))))
   <-> is_Some (fst (reserve_headroom h b))).
Proof.
  intros Hwf Hh Ht.
  pose proof (apply_op_wf (ReserveHeadroom h) b Hwf Hh) as Hwfh.
  pose proof (apply_op_wf (ReserveTailroom tl) b Hwf Ht) as Hwft.
  cbn [apply_op] in Hwfh, Hwft.
  rewrite (reserve_tailroom_eq _ tl Hwfh Ht).
  rewrite (reserve_headroom_eq _ h Hwft Hh).
  rewrite (reserve_headroom_eq b h Hwf Hh).
  rewrite (reserve_tailroom_eq b tl Hwf Ht).
  destruct (Z.gtb_spec h (data_ptr_ b - buffer_start_ b)) as [Hh1 | Hh1];
    destruct (Z.gtb_spec tl (buffer_start_ b + total_allocated_size_ b
                             - (data_ptr_ b + data_len_ b))) as [Ht1 | Ht1];
    cbn [snd fst with_data_len with_data_ptr data_ptr_ data_len_ buffer_start_
         total_allocated_size_].
  - rewrite (proj2 (Z.gtb_lt _ _)) by lia. rewrite (proj2 (Z.gtb_lt _ _)) by lia.
    cbn. repeat split; intros [x Hx]; discriminate.
  - rewrite (proj2 (Z.gtb_lt h _)) by lia.
    destruct (Z.gtb_spec tl (buffer_start_ b + total_allocated_size_ b
                             - (data_ptr_ b + data_len_ b))); [lia |].
    cbn. repeat split; try (intros [x Hx]; discriminate); intros _; eexists; reflexivity.
  - destruct (Z.gtb_spec tl (buffer_start_ b + total_allocated_size_ b
                             - (data_ptr_ b - h + (data_len_ b + h)))); [| lia].
    destruct (Z.gtb_spec h (data_ptr_ b - buffer_start_ b)); [lia |].
    cbn. repeat split; try (intros [x Hx]; discriminate); intros _; eexists; reflexivity.
  - destruct (Z.gtb_spec tl (buffer_start_ b + total_allocated_size_ b
                             - (data_ptr_ b - h + (data_len_ b + h)))); [lia |].
    destruct (Z.gtb_spec h (data_ptr_ b - buffer_start_ b)); [lia |].
    cbn. split.
    + unfold with_data_len, with_data_ptr; cbn.
      replace (data_len_ b + h + tl) with (data_len_ b + tl + h) by lia.
      reflexivity.
    + repeat split; intros _; eexists; reflexivity.
Qed.

(** X6: [capacity()] of a constructed buffer is the payload capacity the
    constructor was given, whatever the headroom and tailroom, also when
    their sum with the payload wraps around in [size_t]. *)
Theorem capacity_is_payload (pool md : option Z) (blk blk_size : Z)
    (start payload hr tr node : Z) :
  is_size_t payload ->
  capacity (ctor pool blk blk_size start payload hr tr md node) = payload.
Proof.
  intros Hp. unfold capacity, ctor; cbn [total_allocated_size_ headroom_ tailroom_].
  unfold to_size_t.
  rewrite Zminus_mod_idemp_l.
  set (y := (hr + payload) mod 2 ^ 64 + tr).
  replace (y mod 2 ^ 64 - hr - tr) with (y mod 2 ^ 64 - (hr + tr)) by lia.
  rewrite Zminus_mod_idemp_l. subst y.
  replace ((hr + payload) mod 2 ^ 64 + tr - (hr + tr))
    with ((hr + payload) mod 2 ^ 64 - hr) by lia.
  rewrite Zminus_mod_idemp_l.
  replace (hr + payload - hr) with payload by lia.
  apply Z.mod_small. exact Hp.
Qed.

End WindowAlgebra.

(** ** Reference counting *)

Section ReferenceCounting.
Import PacketBuffer.

Variable deallocate_buffer : Z -> Z -> Memory -> Memory.

Lemma to_int_small z : - 2 ^ 31 <= z < 2 ^ 31 -> to_int z = z.
Proof.
  intros Hz. unfold to_int. rewrite Z.mod_small by lia. lia.
Qed.

Lemma with_ref_count_same (b : t) : with_ref_count (ref_count_ b) b = b.
Proof. destruct b; reflexivity. Qed.

Lemma with_buffers_same (m : Memory) : with_buffers (buffers m) m = m.
Proof. destruct m; reflexivity. Qed.

Lemma repeat_call_last (k : nat) (f : Memory -> option Memory) :
  forall m m', repeat_call k f m = Some m' ->
  repeat_call (S k) f m = f m'.
Proof.
  induction k as [| k IH]; intros m m' Hk.
  - cbn in Hk. injection Hk as <-. cbn. destruct (f m); reflexivity.
  - cbn [repeat_call] in Hk |- *.
    destruct (f m) as [m1 |]; [| discriminate].
    rewrite <- (IH m1 m' Hk). reflexivity.
Qed.

(** One [add_ref] on a live buffer, and the [release] that gives the
    reference up again. *)
Lemma add_ref_then_release (this : Z) (b : t) (m : Memory) :
  buffers m !! this = Some b ->
  1 <= ref_count_ b < 2 ^ 31 - 1 ->
  exists m1,
    add_ref_at this m = Some m1 /\
    buffers m1 !! this = Some (with_ref_count (ref_count_ b + 1) b) /\
    release deallocate_buffer this m1 = Some m.
Proof.
  intros Hb Hc. unfold add_ref_at. rewrite Hb.
  eexists. split; [reflexivity |].
  unfold add_ref. rewrite to_int_small by lia.
  split; [cbn; apply lookup_insert_eq |].
  unfold release. cbn [buffers with_buffers]. rewrite lookup_insert_eq.
  cbn [ref_count_ with_ref_count].
  destruct (Z.eqb_spec (ref_count_ b + 1) 1) as [Hone | _]; [lia |].
  replace (ref_count_ b + 1 - 1) with (ref_count_ b) by lia.
  rewrite to_int_small by lia.
  rewrite insert_insert_eq.
  change (with_ref_count (ref_count_ b) (with_ref_count (ref_count_ b + 1) b))
    with (with_ref_count (ref_count_ b) b).
  rewrite with_ref_count_same, (insert_id _ _ _ Hb).
  destruct m; reflexivity.
Qed.

(** X7: references taken are given back one for one: on a live buffer, [k]
    calls of [add_ref] followed by [k] calls of [release] (or of
    [PoolManager::deallocate]) leave the whole memory as it was; none of
    these releases hands the buffer to its pool. *)
Theorem add_ref_release_round_trip (k : nat) :
  forall (this : Z) (b : t) (m : Memory),
  buffers m !! this = Some b ->
  1 <= ref_count_ b ->
  ref_count_ b + Z.of_nat k < 2 ^ 31 ->
  exists mk,
    repeat_call k (add_ref_at this) m = Some mk /\
    (ref_count <$> buffers mk !! this) = Some (ref_count_ b + Z.of_nat k) /\
    repeat_call k (release deallocate_buffer this) mk = Some m /\
    repeat_call k (deallocate deallocate_buffer (Some this)) mk = Some m.
Proof.
  induction k as [| k IH]; intros this b m Hb Hlive Hmax.
  - exists m. cbn. rewrite Hb. cbn. rewrite Z.add_0_r. repeat split; reflexivity.
  - destruct (add_ref_then_release this b m Hb) as (m1 & Hadd & Hb1 & Hrel); [lia |].
    destruct (IH this _ m1 Hb1) as (mk & Hadds & Hcount & Hrels & Hdeallocs).
    { cbn. lia. }
    { cbn. lia. }
    exists mk. split; [cbn [repeat_call]; rewrite Hadd; exact Hadds |].
    split.
    { rewrite Hcount. cbn [ref_count_ with_ref_count]. f_equal. lia. }
    split.
    + rewrite (repeat_call_last k _ mk m1 Hrels). exact Hrel.
    + rewrite (repeat_call_last k _ mk m1 Hdeallocs). exact Hrel.
Qed.

(** X8: [release] reaches the pool only on the last reference of a buffer
    that has a pool.  With any other count before the decrement (a shared
    buffer, or one released once too often), or without an owning pool, it
    decrements the count and touches nothing else, whatever the pool's
    [deallocate_buffer] would do. *)
Theorem release_only_decrements (this : Z) (b : t) (m : Memory) :
  buffers m !! this = Some b ->
  ref_count_ b <> 1 \/ owning_pool_ b = None ->
  release deallocate_buffer this m
  = Some (with_buffers
            (<[this := with_ref_count (to_int (ref_count_ b - 1)) b]> (buffers m))
            m).
Proof.
  intros Hb Hcase. unfold release. rewrite Hb.
  destruct (Z.eqb_spec (ref_count_ b) 1) as [Hone | Hnot]; [| reflexivity].
  destruct Hcase as [Hne | Horphan]; [contradiction |].
  cbn [owning_pool_ with_ref_count]. rewrite Horphan. reflexivity.
Qed.

End ReferenceCounting.

(** ** More on pool selection *)

Section SelectionFacts.
Import PoolManager Policy.

Lemma lower_bound_exact (registered : gmap Z Z) (k pool : Z) :
  registered !! k = Some pool -> lower_bound registered k = Some (k, pool).
Proof.
  intros Hk. pose proof (lower_bound_spec registered k) as Hspec.
  destruct (lower_bound registered k) as [[key v] |]; cbn in Hspec.
  - destruct Hspec as (Hkey & Hge & Hmin).
    assert (Heq : key = k).
    { pose proof (Hmin k (Z.le_refl k) (ex_intro _ pool Hk)). lia. }
    subst key. rewrite Hk in Hkey. injection Hkey as <-. reflexivity.
  - specialize (Hspec k (ex_intro _ pool Hk)). lia.
Qed.

(** The two outcomes of [find_pool], read backwards. *)
Lemma find_pool_cases (numa_pools_ : gmap Z (gmap Z Z))
    (requested_size node : Z) :
  (forall pool,
     find_pool numa_pools_ requested_size node = Some pool ->
     best_fit (pools_of numa_pools_ node) requested_size pool \/
     (node <> -1 /\
      no_fit (pools_of numa_pools_ node) requested_size /\
      best_fit (pools_of numa_pools_ (-1)) requested_size pool)) /\
  (find_pool numa_pools_ requested_size node = None ->
   no_fit (pools_of numa_pools_ node) requested_size /\
   no_fit (pools_of numa_pools_ (-1)) requested_size).
Proof.
  rewrite find_pool_eq.
  destruct (lower_bound (pools_of numa_pools_ node) requested_size)
    as [[key p] |] eqn:Hnode.
  - split; [| discriminate].
    intros pool Heq. injection Heq as <-. left.
    exact (lower_bound_best_fit _ _ _ _ Hnode).
  - pose proof (lower_bound_no_fit _ _ Hnode) as Hnone.
    destruct (Z.eqb_spec node (-1)) as [Heq | Hne]; cbn [negb].
    + split; [discriminate |]. intros _. split; [exact Hnone |].
      rewrite <- Heq. exact Hnone.
    + destruct (lower_bound (pools_of numa_pools_ (-1)) requested_size)
        as [[key p] |] eqn:Hglobal.
      * split; [| discriminate].
        intros pool Heq. injection Heq as <-. right.
        split; [exact Hne |]. split; [exact Hnone |].
        exact (lower_bound_best_fit _ _ _ _ Hglobal).
      * split; [discriminate |]. intros _. split; [exact Hnone |].
        exact (lower_bound_no_fit _ _ Hglobal).
Qed.

(** X9: what [find_pool] returns is never too small nor from a foreign
    node: a pool it returns is the best fit of the requested node, or, for a
    node other than [-1] without a fit, the best fit of the global tier; and
    it returns [nullptr] only when neither tier has a size class that is at
    least the requested size. *)
Theorem find_pool_sound (numa_pools_ : gmap Z (gmap Z Z))
    (requested_size node : Z) :
  (forall pool,
     find_pool numa_pools_ requested_size node = Some pool ->
     best_fit (pools_of numa_pools_ node) requested_size pool \/
     (node <> -1 /\
      no_fit (pools_of numa_pools_ node) requested_size /\
      best_fit (pools_of numa_pools_ (-1)) requested_size pool)) /\
  (find_pool numa_pools_ requested_size node = None ->
   no_fit (pools_of numa_pools_ node) requested_size /\
   no_fit (pools_of numa_pools_ (-1)) requested_size).
Proof. apply find_pool_cases. Qed.

(** X10: a smaller request never fails where a larger one succeeds: when
    [find_pool] finds a pool for a size on a node, it finds one for every
    smaller size on that node. *)
Theorem find_pool_smaller_request (numa_pools_ : gmap Z (gmap Z Z))
    (smaller larger node : Z) :
  smaller <= larger ->
  is_Some (find_pool numa_pools_ larger node) ->
  is_Some (find_pool numa_pools_ smaller node).
Proof.
  intros Hle [pool Hfound].
  destruct (find_pool numa_pools_ smaller node) as [p |] eqn:Hsmall;
    [eexists; reflexivity |].
  destruct (find_pool_cases numa_pools_ smaller node) as (_ & Hnone).
  destruct (Hnone Hsmall) as (Hnode & Hglobal).
  destruct (find_pool_cases numa_pools_ larger node) as (Hsome & _).
  destruct (Hsome pool Hfound)
    as [(sc & Hlook & Hge & _) | (_ & _ & (sc & Hlook & Hge & _))].
  - specialize (Hnode sc (ex_intro _ pool Hlook)). lia.
  - specialize (Hglobal sc (ex_intro _ pool Hlook)). lia.
Qed.

End SelectionFacts.

(** ** More on registration *)

Section RegistrationFacts.
Import PoolManager Policy.

Context {World : Type}.
Variable make_pool : Z -> Z -> Z -> Z -> Z -> World -> construction * World.

(** Whatever the loop leaves in the node's map was there before or has the
    size of one of the configs. *)
Lemma configure_loop_only_adds (node : Z) (configs : list PoolConfig) (k p : Z) :
  forall (registered : gmap Z Z) (w : World),
  snd (fst (configure_loop make_pool node configs registered w)) !! k = Some p ->
  registered !! k = Some p \/ In k (map buffer_size configs).
Proof.
  induction configs as [| x configs IH]; intros registered w Hk;
    cbn [configure_loop] in Hk.
  - left. exact Hk.
  - destruct (registered !! buffer_size x) as [q |] eqn:Hx.
    + destruct (IH _ _ Hk) as [Hold | Hin]; [left; exact Hold | right; right; exact Hin].
    + destruct (make_pool (buffer_size x) (initial_count x) node
                          (headroom x) (tailroom x) w) as [[q | |] w1];
        cbn [fst snd] in Hk; try (left; exact Hk).
      destruct (IH _ _ Hk) as [Hold | Hin]; [| right; right; exact Hin].
      destruct (decide (buffer_size x = k)) as [Heq | Hne].
      * right. left. exact Heq.
      * left. rewrite lookup_insert_ne in Hold by exact Hne. exact Hold.
Qed.

(** A loop over configs that are all registered constructs nothing. *)
Lemma configure_loop_all_registered (node : Z) (configs : list PoolConfig)
    (registered : gmap Z Z) (w : World) :
  (forall c, In c configs -> is_Some (registered !! buffer_size c)) ->
  configure_loop make_pool node configs registered w = (true, registered, w).
Proof.
  induction configs as [| x configs IH]; intros Hall; cbn [configure_loop].
  - reflexivity.
  - destruct (Hall x (or_introl eq_refl)) as [p Hp]. rewrite Hp.
    apply IH. intros c Hin. apply Hall. right. exact Hin.
Qed.

Lemma pools_of_insert_same (numa_pools_ : gmap Z (gmap Z Z)) (node : Z)
    (registered : gmap Z Z) :
  pools_of (<[node := registered]> numa_pools_) node = registered.
Proof. unfold pools_of. rewrite lookup_insert_eq. reflexivity. Qed.

Lemma pools_of_insert_other (numa_pools_ : gmap Z (gmap Z Z)) (node other : Z)
    (registered : gmap Z Z) :
  other <> node ->
  pools_of (<[node := registered]> numa_pools_) other = pools_of numa_pools_ other.
Proof.
  intros Hne. unfold pools_of. rewrite lookup_insert_ne by congruence. reflexivity.
Qed.

(** After a call that returned [true] the node has a pool for every config. *)
Lemma configure_registers (numa_pools_ numa_pools' : gmap Z (gmap Z Z))
    (numa_node : Z) (configs : list PoolConfig) (w w' : World) :
  configure_pools_for_numa_node make_pool numa_pools_ numa_node configs w
  = (true, numa_pools', w') ->
  forall c, In c configs ->
  is_Some (pools_of numa_pools' numa_node !! buffer_size c).
Proof.
  unfold configure_pools_for_numa_node. fold (pools_of numa_pools_ numa_node).
  destruct (configure_loop make_pool numa_node configs
              (pools_of numa_pools_ numa_node) w) as [[ok registered'] w1] eqn:Hrun.
  intros Heq c Hin. injection Heq as -> <- <-.
  rewrite pools_of_insert_same.
  exact (configure_loop_registers make_pool numa_node configs _ _ _ _ Hrun c Hin).
Qed.

(** X11: registration and lookup agree: after a call of
    [configure_pools_for_numa_node] that returned [true], every config of the
    call has a pool for its size on the node, and [find_pool] answers a
    request of exactly that size on that node with that pool. *)
Theorem configure_then_find (numa_pools_ numa_pools' : gmap Z (gmap Z Z))
    (numa_node : Z) (configs : list PoolConfig) (w w' : World) :
  configure_pools_for_numa_node make_pool numa_pools_ numa_node configs w
  = (true, numa_pools', w') ->
  forall c, In c configs ->
  exists pool,
    pools_of numa_pools' numa_node !! buffer_size c = Some pool /\
    find_pool numa_pools' (buffer_size c) numa_node = Some pool.
Proof.
  unfold configure_pools_for_numa_node. fold (pools_of numa_pools_ numa_node).
  destruct (configure_loop make_pool numa_node configs
              (pools_of numa_pools_ numa_node) w) as [[ok registered'] w1] eqn:Hrun.
  intros Heq c Hin. injection Heq as -> <- <-.
  destruct (configure_loop_registers make_pool numa_node configs _ _ _ _ Hrun c Hin)
    as [pool Hpool].
  exists pool. rewrite pools_of_insert_same. split; [exact Hpool |].
  rewrite find_pool_eq, pools_of_insert_same.
  rewrite (lower_bound_exact _ _ _ Hpool). reflexivity.
Qed.

(** X12: a registration call only adds, and only what it was asked for,
    whether it returns [true] or [false]: the maps of the other nodes are
    untouched, every pool registered on the node stays registered under its
    size, and a size registered afterwards was registered before or is the
    size of one of the configs. *)
Theorem configure_only_adds (numa_pools_ numa_pools' : gmap Z (gmap Z Z))
    (numa_node : Z) (configs : list PoolConfig) (w w' : World) (ok : bool) :
  configure_pools_for_numa_node make_pool numa_pools_ numa_node configs w
  = (ok, numa_pools', w') ->
  (forall other, other <> numa_node ->
     numa_pools' !! other = numa_pools_ !! other) /\
  (forall k p, pools_of numa_pools_ numa_node !! k = Some p ->
     pools_of numa_pools' numa_node !! k = Some p) /\
  (forall k p, pools_of numa_pools' numa_node !! k = Some p ->
     pools_of numa_pools_ numa_node !! k = Some p \/
     In k (map buffer_size configs)).
Proof.
  unfold configure_pools_for_numa_node. fold (pools_of numa_pools_ numa_node).
  destruct (configure_loop make_pool numa_node configs
              (pools_of numa_pools_ numa_node) w) as [[ok1 registered'] w1] eqn:Hrun.
  intros Heq. injection Heq as -> <- <-.
  split; [| split].
  - intros other Hne. rewrite lookup_insert_ne by congruence. reflexivity.
  - intros k p Hk. rewrite pools_of_insert_same.
    pose proof (configure_loop_keeps make_pool numa_node configs k p _ w Hk) as Hkept.
    rewrite Hrun in Hkept. exact Hkept.
  - intros k p Hk. rewrite pools_of_insert_same in Hk.
    apply (configure_loop_only_adds numa_node configs k p _ w).
    rewrite Hrun. exact Hk.
Qed.

(** X13: registration is idempotent: repeating a call that returned [true],
    with the same configs on the manager it left, returns [true] again,
    constructs nothing and changes neither the manager nor the world of the
    pools. *)
Theorem configure_twice (numa_pools_ numa_pools' : gmap Z (gmap Z Z))
    (numa_node : Z) (configs : list PoolConfig) (w w' : World) :
  configure_pools_for_numa_node make_pool numa_pools_ numa_node configs w
  = (true, numa_pools', w') ->
  configure_pools_for_numa_node make_pool numa_pools' numa_node configs w'
  = (true, numa_pools', w').
Proof.
  intros Hfirst.
  assert (Hall : forall c, In c configs ->
                   is_Some (pools_of numa_pools' numa_node !! buffer_size c)).
  { exact (configure_registers _ _ _ _ _ _ Hfirst). }
  assert (Hnode : numa_pools' !! numa_node = Some (pools_of numa_pools' numa_node)).
  { revert Hfirst. unfold configure_pools_for_numa_node.
    destruct (configure_loop make_pool numa_node configs _ w) as [[ok r] w1].
    intros Heq. injection Heq as _ <- _.
    rewrite pools_of_insert_same. apply lookup_insert_eq. }
  unfold configure_pools_for_numa_node. fold (pools_of numa_pools' numa_node).
  rewrite (configure_loop_all_registered numa_node configs _ w' Hall).
  rewrite (insert_id _ _ _ Hnode). reflexivity.
Qed.

Lemma find_pool_same_pools (a b : gmap Z (gmap Z Z)) :
  (forall node, pools_of a node = pools_of b node) ->
  forall size node, find_pool a size node = find_pool b size node.
Proof.
  intros Hsame size node. rewrite !find_pool_eq, !Hsame. reflexivity.
Qed.

Lemma pools_of_touch (numa_pools_ : gmap Z (gmap Z Z)) (node other : Z) :
  pools_of (<[node := pools_of numa_pools_ node]> numa_pools_) other
  = pools_of numa_pools_ other.
Proof.
  destruct (decide (other = node)) as [-> | Hne].
  - apply pools_of_insert_same.
  - apply pools_of_insert_other. exact Hne.
Qed.

(** X14: a call that registers nothing changes no allocation decision,
    although it creates the (empty) entry of a node seen for the first time:
    after a call with no configs, which returns [true], and after an
    [add_pool] that returned [false], [find_pool] answers every request as
    before. *)
Theorem unproductive_registration_is_invisible
    (numa_pools_ : gmap Z (gmap Z Z)) (numa_node : Z) (w : World) :
  (exists numa_pools',
     configure_pools_for_numa_node make_pool numa_pools_ numa_node [] w
     = (true, numa_pools', w) /\
     forall size node,
       find_pool numa_pools' size node = find_pool numa_pools_ size node) /\
  (forall config numa_pools' w',
     add_pool make_pool numa_pools_ numa_node config w = (false, numa_pools', w') ->
     forall size node,
       find_pool numa_pools' size node = find_pool numa_pools_ size node).
Proof.
  split.
  - eexists. split; [reflexivity |].
    apply find_pool_same_pools. intros node.
    change (default ∅ (numa_pools_ !! numa_node)) with (pools_of numa_pools_ numa_node).
    apply pools_of_touch.
  - intros config numa_pools' w'. unfold add_pool, configure_pools_for_numa_node.
    fold (pools_of numa_pools_ numa_node). cbn [configure_loop].
    destruct (pools_of numa_pools_ numa_node !! buffer_size config) as [p |];
      [discriminate |].
    destruct (make_pool (buffer_size config) (initial_count config) numa_node
                        (headroom config) (tailroom config) w) as [[p | |] w1];
      [discriminate | |];
      intros Heq; injection Heq as <- <-;
      apply find_pool_same_pools; intros node; apply pools_of_touch.
Qed.

End RegistrationFacts.

Section RegistrationFailure.
Import PoolManager Policy.

Context {World : Type}.
Variable make_pool : Z -> Z -> Z -> Z -> Z -> World -> construction * World.

Lemma configure_loop_false (node : Z) (configs : list PoolConfig) :
  forall (registered registered' : gmap Z Z) (w w' : World),
  configure_loop make_pool node configs registered w = (false, registered', w') ->
  exists c w0,
    In c configs /\
    failed (fst (make_pool (buffer_size c) (initial_count c) node
                           (headroom c) (tailroom c) w0)) = true /\
    snd (make_pool (buffer_size c) (initial_count c) node
                   (headroom c) (tailroom c) w0) = w' /\
    registered' !! buffer_size c = None.
Proof.
  induction configs as [| x configs IH]; intros registered registered' w w' Hrun;
    cbn [configure_loop] in Hrun.
  - discriminate.
  - destruct (registered !! buffer_size x) as [p |] eqn:Hx.
    + destruct (IH _ _ _ _ Hrun) as (c & w0 & Hin & Hrest).
      exists c, w0. split; [right; exact Hin | exact Hrest].
    + destruct (make_pool (buffer_size x) (initial_count x) node
                          (headroom x) (tailroom x) w) as [[p | |] w1] eqn:Hmake.
      * destruct (IH _ _ _ _ Hrun) as (c & w0 & Hin & Hrest).
        exists c, w0. split; [right; exact Hin | exact Hrest].
      * injection Hrun as <- <-. exists x, w. rewrite Hmake.
        split; [left; reflexivity |]. repeat split; try reflexivity; exact Hx.
      * injection Hrun as <- <-. exists x, w. rewrite Hmake.
        split; [left; reflexivity |]. repeat split; try reflexivity; exact Hx.
Qed.

(** X15: a registration call returns [false] only through a failed
    construction: then one of its configs is such that constructing its pool
    threw, the world is the one that construction left, and the node has no
    pool of that config's size afterwards. *)
Theorem configure_false_has_a_culprit (numa_pools_ numa_pools' : gmap Z (gmap Z Z))
    (numa_node : Z) (configs : list PoolConfig) (w w' : World) :
  configure_pools_for_numa_node make_pool numa_pools_ numa_node configs w
  = (false, numa_pools', w') ->
  exists c w0,
    In c configs /\
    failed (fst (make_pool (buffer_size c) (initial_count c) numa_node
                           (headroom c) (tailroom c) w0)) = true /\
    snd (make_pool (buffer_size c) (initial_count c) numa_node
                   (headroom c) (tailroom c) w0) = w' /\
    pools_of numa_pools' numa_node !! buffer_size c = None.
Proof.
  unfold configure_pools_for_numa_node.
  destruct (configure_loop make_pool numa_node configs
              (default ∅ (numa_pools_ !! numa_node)) w)
    as [[ok registered'] w1] eqn:Hrun.
  intros Heq. injection Heq as -> <- <-.
  destruct (configure_loop_false numa_node configs _ _ _ _ Hrun)
    as (c & w0 & Hin & Hfailed & Hworld & Hfree).
  exists c, w0. unfold pools_of. rewrite lookup_insert_eq. cbn [from_option id].
  repeat split; assumption.
Qed.

End RegistrationFailure.

(** ** What [release] and the window operations leave alone *)

Section Frames.
Import PacketBuffer.

Variable deallocate_buffer : Z -> Z -> Memory -> Memory.

(** X16: what the last [release] passes to the pool differs from the memory
    before only in the window, link and count of this buffer and in the state
    of its record: the buffer keeps its region, configured headroom and
    tailroom, record, node and pool; the record keeps port, VLAN, timestamp
    and custom pointer; every other buffer and record, the pools and the heap
    are as before. *)
Theorem release_frame (this pool : Z) (b : t) (m : Memory) :
  buffers m !! this = Some b ->
  ref_count_ b = 1 ->
  owning_pool_ b = Some pool ->
  exists (m' : Memory) (b' : t),
    release deallocate_buffer this m = Some (deallocate_buffer pool this m') /\
    buffers m' !! this = Some b' /\
    (buffer_start_ b' = buffer_start_ b /\
     total_allocated_size_ b' = total_allocated_size_ b /\
     headroom_ b' = headroom_ b /\ tailroom_ b' = tailroom_ b /\
     metadata_ b' = metadata_ b /\ numa_node_ b' = numa_node_ b /\
     owning_pool_ b' = owning_pool_ b) /\
    (forall other, other <> this -> buffers m' !! other = buffers m !! other) /\
    (forall r, metadata_ b <> Some r -> records m' !! r = records m !! r) /\
    (forall md r, metadata_ b = Some md -> records m !! md = Some r ->
       exists r', records m' !! md = Some r' /\
         BufferMetadata.ingress_port_ r' = BufferMetadata.ingress_port_ r /\
         BufferMetadata.vlan_id_ r' = BufferMetadata.vlan_id_ r /\
         BufferMetadata.rx_timestamp_ r' = BufferMetadata.rx_timestamp_ r /\
         BufferMetadata.custom_metadata_ptr_ r'
         = BufferMetadata.custom_metadata_ptr_ r) /\
    pools m' = pools m /\ heap_next m' = heap_next m /\ heap_end m' = heap_end m.
Proof.
  intros Hb Hcount Hpool. unfold release. rewrite Hb, Hcount.
  cbn [Z.eqb Pos.eqb with_ref_count owning_pool_ metadata_]. rewrite Hpool.
  eexists. eexists. split; [reflexivity |].
  split.
  { destruct (metadata_ b); cbn [set_record_state with_records with_buffers buffers];
      apply lookup_insert_eq. }
  split; [repeat split; try reflexivity; exact Hpool |].
  split.
  { intros other Hne.
    destruct (metadata_ b); cbn [set_record_state with_records with_buffers buffers];
      rewrite !lookup_insert_ne by congruence; reflexivity. }
  split.
  { intros r Hr. destruct (metadata_ b) as [md |]; cbn; [| reflexivity].
    apply lookup_alter_ne. congruence. }
  split.
  { intros md r Hmd Hr. rewrite Hmd. cbn. rewrite lookup_alter_eq, Hr.
    eexists. split; [reflexivity |]. repeat split; reflexivity. }
  destruct (metadata_ b); repeat split; reflexivity.
Qed.

(** X17: what a freshly constructed buffer has to give: a headroom
    reservation succeeds exactly up to the configured headroom, a tailroom
    reservation exactly up to payload plus configured tailroom, and
    [set_data_len] stores the smaller of its argument and payload plus
    tailroom. *)
Theorem fresh_buffer_budget (pool md : option Z) (blk blk_size : Z)
    (start payload hr tr node n : Z) :
  0 <= start -> 0 <= hr -> 0 <= payload -> 0 <= tr ->
  start + hr + payload + tr < 2 ^ 64 ->
  is_size_t n ->
  let b := ctor pool blk blk_size start payload hr tr md node in
  (is_Some (fst (reserve_headroom n b)) <-> n <= hr) /\
  (is_Some (fst (reserve_tailroom n b)) <-> n <= payload + tr) /\
  data_len (set_data_len n b) = Z.min n (payload + tr).
Proof.
  intros Hs Hh Hp Ht Hfit Hn b.
  destruct (ctor_fresh_region pool md blk blk_size start payload hr tr node
              Hs Hh Hp Ht Hfit) as (Hreg & Hfresh).
  fold b in Hreg, Hfresh.
  pose proof (fresh_region_wf b Hreg Hfresh) as Hwf.
  destruct Hfresh as (Hptr & Hlen).
  assert (Htotal : total_allocated_size_ b = hr + payload + tr).
  { unfold b, ctor; cbn [total_allocated_size_].
    rewrite (to_size_t_small (hr + payload)) by (unfold is_size_t; lia).
    apply to_size_t_small. unfold is_size_t. lia. }
  assert (Hstart : buffer_start_ b = start) by reflexivity.
  assert (Hhr : headroom_ b = hr) by reflexivity.
  split; [| split].
  - rewrite (reserve_headroom_eq b n Hwf Hn), Hptr, Hhr, Hstart.
    destruct (Z.gtb_spec n (start + hr - start)); cbn [fst].
    + split; [intros [x Hx]; discriminate | lia].
    + split; [lia | intros _; eexists; reflexivity].
  - rewrite (reserve_tailroom_eq b n Hwf Hn), Hptr, Hlen, Htotal, Hhr, Hstart.
    destruct (Z.gtb_spec n (start + (hr + payload + tr) - (start + hr + 0)));
      cbn [fst].
    + split; [intros [x Hx]; discriminate | lia].
    + split; [lia | intros _; eexists; reflexivity].
  - rewrite (set_data_len_eq b n Hwf). cbn [data_len with_data_len data_len_].
    rewrite Hptr, Htotal, Hhr, Hstart.
    destruct (Z.leb_spec (start + hr + n) (start + (hr + payload + tr))); lia.
Qed.

(** X18: no window operation moves the start of the window forward: along
    any run of [set_data_len], [reserve_headroom] and [reserve_tailroom] the
    window start never exceeds the one the run began with, so headroom once
    reserved is not given back by these operations. *)
Theorem window_start_never_advances (ops : list window_op) :
  forall b : t,
  wf b ->
  Forall (fun o => is_size_t (op_arg o)) ops ->
  Forall (fun b' => data b' <= data b) (trace ops b).
Proof.
  induction ops as [| o ops IH]; intros b Hwf Hargs; cbn [trace].
  - constructor.
  - inversion Hargs as [| ? ? Ho Hrest]; subst.
    pose proof (apply_op_wf o b Hwf Ho) as Hwf'.
    assert (Hstep : data (apply_op o b) <= data b).
    { unfold data.
      destruct o as [n | n | n]; cbn [apply_op op_arg] in *.
      - rewrite (set_data_len_eq b n Hwf). cbn [with_data_len data_ptr_]. lia.
      - rewrite (reserve_headroom_eq b n Hwf Ho).
        destruct (Z.gtb_spec n (data_ptr_ b - buffer_start_ b));
          cbn [snd with_data_len with_data_ptr data_ptr_];
          unfold is_size_t in Ho; lia.
      - rewrite (reserve_tailroom_eq b n Hwf Ho).
        destruct (n >? _); cbn [snd with_data_len data_ptr_]; lia. }
    constructor; [exact Hstep |].
    eapply Forall_impl; [apply (IH _ Hwf' Hrest) |].
    cbn. intros b' Hb'. unfold data in *. lia.
Qed.

End Frames.

(** ** The further properties at work *)

Section FurtherWindowExamples.
Import PacketBuffer.

Lemma reserve_tailroom_exact_witness :
  wf Orphan.buffer /\ is_size_t 118 /\ is_size_t 119 /\
  reserve_tailroom 118 Orphan.buffer
  = (Some 8354, with_data_len 133 Orphan.buffer) /\
  reserve_tailroom 119 Orphan.buffer = (None, Orphan.buffer).
Proof.
  assert (Hwf : wf Orphan.buffer) by by_evaluation.
  assert (H118 : is_size_t 118) by by_evaluation.
  assert (H119 : is_size_t 119) by by_evaluation.
  split; [exact Hwf |]. split; [exact H118 |]. split; [exact H119 |]. split.
  - destruct (reserve_tailroom_exact Orphan.buffer 118 Hwf H118) as (_ & Hok & _).
    rewrite Hok; by_evaluation.
  - destruct (reserve_tailroom_exact Orphan.buffer 119 Hwf H119) as (_ & _ & Hfail).
    apply Hfail. by_evaluation.
Defined.

Lemma reserve_headroom_adds_up_witness :
  wf Orphan.buffer /\ is_size_t 10 /\ is_size_t 17 /\ is_size_t 18 /\
  reserve_headroom 17 (snd (reserve_headroom 10 Orphan.buffer))
  = reserve_headroom 27 Orphan.buffer /\
  reserve_headroom 18 (snd (reserve_headroom 10 Orphan.buffer))
  = (None, snd (reserve_headroom 10 Orphan.buffer)).
Proof.
  assert (Hwf : wf Orphan.buffer) by by_evaluation.
  assert (H10 : is_size_t 10) by by_evaluation.
  assert (H17 : is_size_t 17) by by_evaluation.
  assert (H18 : is_size_t 18) by by_evaluation.
  assert (Hfit : 10 <= data_ptr_ Orphan.buffer - buffer_start_ Orphan.buffer)
    by by_evaluation.
  split; [exact Hwf |]. split; [exact H10 |]. split; [exact H17 |].
  split; [exact H18 |]. split.
  - destruct (reserve_headroom_adds_up Orphan.buffer 10 17 Hwf H10 H17 Hfit)
      as (Hboth & _).
    apply Hboth. by_evaluation.
  - destruct (reserve_headroom_adds_up Orphan.buffer 10 18 Hwf H10 H18 Hfit)
      as (_ & Hover).
    apply Hover. by_evaluation.
Defined.

Lemma reservations_commute_witness :
  wf Orphan.buffer /\ is_size_t 27 /\ is_size_t 118 /\
  snd (reserve_tailroom 118 (snd (reserve_headroom 27 Orphan.buffer)))
  = snd (reserve_headroom 27 (snd (reserve_tailroom 118 Orphan.buffer))).
Proof.
  assert (Hwf : wf Orphan.buffer) by by_evaluation.
  assert (H27 : is_size_t 27) by by_evaluation.
  assert (H118 : is_size_t 118) by by_evaluation.
  split; [exact Hwf |]. split; [exact H27 |]. split; [exact H118 |].
  exact (proj1 (reservations_commute Orphan.buffer 27 118 Hwf H27 H118)).
Defined.

Lemma capacity_is_payload_witness :
  is_size_t 128 /\
  capacity (ctor None 8192 280 8312 128 (2 ^ 64 - 1) 5 None (-1)) = 128.
Proof.
  assert (H128 : is_size_t 128) by by_evaluation.
  split; [exact H128 |].
  exact (capacity_is_payload None None 8192 280 8312 128 (2 ^ 64 - 1) 5 (-1) H128).
Defined.

Lemma fresh_buffer_budget_witness :
  let b := ctor None 8192 296 8312 128 32 16 None (-1) in
  is_size_t 200 /\
  (is_Some (fst (reserve_headroom 200 b)) <-> 200 <= 32) /\
  (is_Some (fst (reserve_tailroom 200 b)) <-> 200 <= 128 + 16) /\
  data_len (set_data_len 200 b) = Z.min 200 (128 + 16).
Proof.
  intros b.
  assert (H200 : is_size_t 200) by by_evaluation.
  split; [exact H200 |].
  apply (fresh_buffer_budget None None 8192 296 8312 128 32 16 (-1) 200);
    first [exact H200 | by_evaluation].
Defined.

Lemma window_start_never_advances_witness :
  let ops := [ReserveHeadroom 7; SetDataLen 500; ReserveTailroom 1;
              ReserveHeadroom 20; ReserveHeadroom 1] in
  wf Orphan.buffer /\
  Forall (fun o => is_size_t (op_arg o)) ops /\
  Forall (fun b' => data b' <= data Orphan.buffer) (trace ops Orphan.buffer).
Proof.
  intros ops.
  assert (Hwf : wf Orphan.buffer) by by_evaluation.
  assert (Hargs : Forall (fun o => is_size_t (op_arg o)) ops).
  { repeat constructor; by_evaluation. }
  split; [exact Hwf |]. split; [exact Hargs |].
  exact (window_start_never_advances ops Orphan.buffer Hwf Hargs).
Defined.

End FurtherWindowExamples.

Section FurtherLifetimeExamples.
Import PacketBuffer.

Lemma add_ref_release_round_trip_witness :
  let b := PacketBuffer.mk 4352 160 4384 0 32 0 1 None (Some 4232) 0 (Some 4096) in
  buffers Exhaustion.memory !! 4264 = Some b /\
  1 <= ref_count_ b /\
  ref_count_ b + Z.of_nat 3 < 2 ^ 31 /\
  exists mk,
    repeat_call 3 (add_ref_at 4264) Exhaustion.memory = Some mk /\
    (ref_count <$> buffers mk !! 4264) = Some 4 /\
    repeat_call 3 (release PoolModel.deallocate_buffer 4264) mk
    = Some Exhaustion.memory.
Proof.
  intros b.
  assert (Hb : buffers Exhaustion.memory !! 4264 = Some b) by (vm_compute; reflexivity).
  assert (Hlive : 1 <= ref_count_ b) by by_evaluation.
  assert (Hmax : ref_count_ b + Z.of_nat 3 < 2 ^ 31) by by_evaluation.
  split; [exact Hb |]. split; [exact Hlive |]. split; [exact Hmax |].
  destruct (add_ref_release_round_trip PoolModel.deallocate_buffer 3 4264 b
              Exhaustion.memory Hb Hlive Hmax)
    as (mk & Hadds & Hcount & Hrels & _).
  exists mk. split; [exact Hadds |]. split; [exact Hcount |]. exact Hrels.
Defined.

Lemma release_only_decrements_witness :
  buffers Orphan.memory !! Orphan.this = Some Orphan.buffer /\
  owning_pool_ Orphan.buffer = None /\
  release PoolModel.deallocate_buffer Orphan.this Orphan.memory
  = Some (with_buffers
            (<[Orphan.this := with_ref_count 0 Orphan.buffer]>
               (buffers Orphan.memory))
            Orphan.memory).
Proof.
  assert (Hb : buffers Orphan.memory !! Orphan.this = Some Orphan.buffer)
    by (vm_compute; reflexivity).
  assert (Horphan : owning_pool_ Orphan.buffer = None) by reflexivity.
  split; [exact Hb |]. split; [exact Horphan |].
  exact (release_only_decrements PoolModel.deallocate_buffer Orphan.this
           Orphan.buffer Orphan.memory Hb (or_intror Horphan)).
Defined.

Lemma release_frame_witness :
  let b := PacketBuffer.mk 4352 160 4384 0 32 0 1 None (Some 4232) 0 (Some 4096) in
  buffers Exhaustion.memory !! 4264 = Some b /\
  ref_count_ b = 1 /\
  owning_pool_ b = Some 4096 /\
  exists (m' : Memory),
    release PoolModel.deallocate_buffer 4264 Exhaustion.memory
    = Some (PoolModel.deallocate_buffer 4096 4264 m') /\
    buffers m' !! 4680 = buffers Exhaustion.memory !! 4680 /\
    pools m' = pools Exhaustion.memory.
Proof.
  intros b.
  assert (Hb : buffers Exhaustion.memory !! 4264 = Some b) by (vm_compute; reflexivity).
  split; [exact Hb |]. split; [reflexivity |]. split; [reflexivity |].
  destruct (release_frame PoolModel.deallocate_buffer 4264 4096 b
              Exhaustion.memory Hb eq_refl eq_refl)
    as (m' & b' & Hrel & _ & _ & Hothers & _ & _ & Hpools & _).
  exists m'. split; [exact Hrel |]. split; [| exact Hpools].
  apply Hothers. discriminate.
Defined.

End FurtherLifetimeExamples.

Section FurtherManagerExamples.
Import PoolManager Policy.

Lemma find_pool_sound_witness :
  find_pool Scenario.numa_pools_ 600 7 = Some 15872 /\
  (best_fit (pools_of Scenario.numa_pools_ 7) 600 15872 \/
   (7 <> -1 /\ no_fit (pools_of Scenario.numa_pools_ 7) 600 /\
    best_fit (pools_of Scenario.numa_pools_ (-1)) 600 15872)) /\
  find_pool Scenario.numa_pools_ 2048 0 = None /\
  no_fit (pools_of Scenario.numa_pools_ 0) 2048 /\
  no_fit (pools_of Scenario.numa_pools_ (-1)) 2048.
Proof.
  assert (Hfound : find_pool Scenario.numa_pools_ 600 7 = Some 15872)
    by (vm_compute; reflexivity).
  assert (Hnone : find_pool Scenario.numa_pools_ 2048 0 = None)
    by (vm_compute; reflexivity).
  split; [exact Hfound |]. split.
  - exact (proj1 (find_pool_sound Scenario.numa_pools_ 600 7) 15872 Hfound).
  - split; [exact Hnone |].
    exact (proj2 (find_pool_sound Scenario.numa_pools_ 2048 0) Hnone).
Defined.

Lemma find_pool_smaller_request_witness :
  1 <= 1024 /\
  is_Some (find_pool Scenario.numa_pools_ 1024 0) /\
  is_Some (find_pool Scenario.numa_pools_ 1 0).
Proof.
  assert (Hle : 1 <= 1024) by by_evaluation.
  assert (Hlarge : is_Some (find_pool Scenario.numa_pools_ 1024 0)).
  { exists 10648. vm_compute. reflexivity. }
  split; [exact Hle |]. split; [exact Hlarge |].
  exact (find_pool_smaller_request Scenario.numa_pools_ 1 1024 0 Hle Hlarge).
Defined.

Lemma configure_then_find_witness :
  let done := Scenario.configure ∅ 0 Scenario.configs_node0 Scenario.boot in
  done = (true, snd (fst done), snd done) /\
  In (mkPoolConfig 512 5 64 0) Scenario.configs_node0 /\
  exists pool,
    pools_of (snd (fst done)) 0 !! 512 = Some pool /\
    find_pool (snd (fst done)) 512 0 = Some pool.
Proof.
  intros done.
  assert (Hdone : done = (true, snd (fst done), snd done))
    by (vm_compute; reflexivity).
  assert (Hin : In (mkPoolConfig 512 5 64 0) Scenario.configs_node0)
    by (right; left; reflexivity).
  split; [exact Hdone |]. split; [exact Hin |].
  exact (configure_then_find PoolModel.make_unique ∅ (snd (fst done)) 0
           Scenario.configs_node0 Scenario.boot (snd done) Hdone _ Hin).
Defined.

Lemma configure_only_adds_witness :
  let configs := [mkPoolConfig 256 2 16 0; mkPoolConfig 128 99 0 0;
                  mkPoolConfig (2 ^ 40) 4 0 0; mkPoolConfig 2048 1 0 0] in
  let done := Scenario.configure Scenario.numa_pools_ 0 configs Scenario.memory in
  done = (false, snd (fst done), snd done) /\
  snd (fst done) !! (-1) = Scenario.numa_pools_ !! (-1) /\
  pools_of (snd (fst done)) 0 !! 1024 = Some 10648 /\
  (pools_of Scenario.numa_pools_ 0 !! 256 = Some 26184 \/
   In 256 (map buffer_size configs)).
Proof.
  intros configs done.
  assert (Hdone : done = (false, snd (fst done), snd done))
    by (vm_compute; reflexivity).
  destruct (configure_only_adds PoolModel.make_unique Scenario.numa_pools_
              (snd (fst done)) 0 configs Scenario.memory (snd done) false Hdone)
    as (Hothers & Hkept & Hnew).
  split; [exact Hdone |]. split; [apply Hothers; discriminate |]. split.
  - apply Hkept. vm_compute. reflexivity.
  - apply Hnew. vm_compute. reflexivity.
Defined.

Lemma configure_twice_witness :
  let done := Scenario.configure ∅ 0 Scenario.configs_node0 Scenario.boot in
  done = (true, snd (fst done), snd done) /\
  Scenario.configure (snd (fst done)) 0 Scenario.configs_node0 (snd done)
  = (true, snd (fst done), snd done).
Proof.
  intros done.
  assert (Hdone : done = (true, snd (fst done), snd done))
    by (vm_compute; reflexivity).
  split; [exact Hdone |].
  exact (configure_twice PoolModel.make_unique ∅ (snd (fst done)) 0
           Scenario.configs_node0 Scenario.boot (snd done) Hdone).
Defined.

Lemma unproductive_registration_is_invisible_witness :
  let config := mkPoolConfig (2 ^ 40) 4 0 0 in
  let done := add_pool PoolModel.make_unique Scenario.numa_pools_ 9 config
                Scenario.memory in
  done = (false, snd (fst done), snd done) /\
  Scenario.numa_pools_ !! 9 = None /\
  snd (fst done) !! 9 = Some ∅ /\
  forall size node,
    find_pool (snd (fst done)) size node = find_pool Scenario.numa_pools_ size node.
Proof.
  intros config done.
  assert (Hdone : done = (false, snd (fst done), snd done))
    by (vm_compute; reflexivity).
  split; [exact Hdone |].
  split; [vm_compute; reflexivity |]. split; [vm_compute; reflexivity |].
  exact (proj2 (unproductive_registration_is_invisible PoolModel.make_unique
                  Scenario.numa_pools_ 9 Scenario.memory)
           config (snd (fst done)) (snd done) Hdone).
Defined.

Lemma configure_false_has_a_culprit_witness :
  let configs := [mkPoolConfig 128 2 32 0; mkPoolConfig (2 ^ 40) 4 0 0;
                  mkPoolConfig 512 2 32 0] in
  let done := Scenario.configure ∅ 0 configs Scenario.boot in
  done = (false, snd (fst done), snd done) /\
  exists c w0,
    In c configs /\
    failed (fst (PoolModel.make_unique (buffer_size c) (initial_count c) 0
                   (headroom c) (tailroom c) w0)) = true /\
    snd (PoolModel.make_unique (buffer_size c) (initial_count c) 0
           (headroom c) (tailroom c) w0) = snd done /\
    pools_of (snd (fst done)) 0 !! buffer_size c = None.
Proof.
  intros configs done.
  assert (Hdone : done = (false, snd (fst done), snd done))
    by (vm_compute; reflexivity).
  split; [exact Hdone |].
  exact (configure_false_has_a_culprit PoolModel.make_unique ∅ (snd (fst done)) 0
           configs Scenario.boot (snd done) Hdone).
Defined.

End FurtherManagerExamples.
